(** * envqmon_web_app: the dashboard and analytics pages

    A shallow embedding of the logic of [src/app/dashboard/page.tsx] and
    [src/app/analytics/page.tsx]: the online-status evaluator, the two
    refresh paths of the device status map, the threshold colours, the
    range fetcher, the aggregate statistics and the CSV export.

    React state is a record, one field per [useState] cell; a state setter
    is a record update.  An [async] function is split at the [await] whose
    answer decides what it does: the answer of the network is an argument.
    The values a function closes over ([devices], [selectedDevice], the
    query parameter) are arguments too, since a pending call keeps the
    values of the render that started it.  The status map, a JS object used
    as a dictionary, is the [gmap string bool] of its own properties;
    assigning to it and reading from it are those of a plain object
    ([JS.objSet], [JS.objTruthy]). *)

From Stdlib Require Import ZArith QArith Qabs Qround Qreduction String Ascii List.
From Stdlib Require Import DecimalString.
From stdpp Require Import base option list gmap strings pretty.

(** ** The JavaScript values the pages compute with *)

Module JS.

(** A JS [number].  Finite values carry their exact rational value: every
    finite binary64 is a rational, and the comparisons of two finite doubles
    are those of their values.  The sign of zero is not kept.

    [num_add], [num_sub], [num_mul] and [num_div] below are the exact
    operations.  The clock arithmetic of the pages works on integers, where
    the comparisons it feeds come out the same as with rounding for every
    clock a [Date] can hold.  The statistics add and divide sensor values:
    they use [add64] and [div64], which round the exact result to the
    nearest binary64, ties to even, as the machine does. *)
Inductive number : Type :=
  | NaN
  | NegInf
  | PosInf
  | Fin (q : Q).

Definition ofZ (z : Z) : number := Fin (inject_Z z).

Definition Qltb (p q : Q) : bool :=
  match (p ?= q)%Q with Lt => true | _ => false end.

(** [a < b]: false as soon as one side is NaN. *)
Definition num_lt (a b : number) : bool :=
  match a, b with
  | NaN, _ | _, NaN => false
  | _, NegInf => false
  | NegInf, _ => true
  | PosInf, _ => false
  | Fin _, PosInf => true
  | Fin p, Fin q => Qltb p q
  end.

(** [a > b] is [b < a]. *)
Definition num_gt (a b : number) : bool := num_lt b a.

(** [a <= b]: false when one side is NaN, otherwise the negation of [b < a]. *)
Definition num_le (a b : number) : bool :=
  match a, b with
  | NaN, _ | _, NaN => false
  | _, _ => negb (num_lt b a)
  end.

Definition num_neg (a : number) : number :=
  match a with
  | NaN => NaN
  | NegInf => PosInf
  | PosInf => NegInf
  | Fin q => Fin (- q)%Q
  end.

Definition num_add (a b : number) : number :=
  match a, b with
  | NaN, _ | _, NaN => NaN
  | PosInf, NegInf | NegInf, PosInf => NaN
  | PosInf, _ | _, PosInf => PosInf
  | NegInf, _ | _, NegInf => NegInf
  | Fin p, Fin q => Fin (p + q)%Q
  end.

Definition num_sub (a b : number) : number := num_add a (num_neg b).

(** The infinity that has the sign of [q], NaN at zero. *)
Definition inf_of_sign (q : Q) (pos : bool) : number :=
  match (q ?= 0)%Q with
  | Eq => NaN
  | Gt => if pos then PosInf else NegInf
  | Lt => if pos then NegInf else PosInf
  end.

Definition num_mul (a b : number) : number :=
  match a, b with
  | NaN, _ | _, NaN => NaN
  | PosInf, PosInf | NegInf, NegInf => PosInf
  | PosInf, NegInf | NegInf, PosInf => NegInf
  | PosInf, Fin q | Fin q, PosInf => inf_of_sign q true
  | NegInf, Fin q | Fin q, NegInf => inf_of_sign q false
  | Fin p, Fin q => Fin (p * q)%Q
  end.

(** Division; a zero divisor is the positive zero (the only divisor the
    pages use is an array length). *)
Definition num_div (a b : number) : number :=
  match a, b with
  | NaN, _ | _, NaN => NaN
  | (PosInf | NegInf), (PosInf | NegInf) => NaN
  | Fin _, (PosInf | NegInf) => Fin 0%Q
  | PosInf, Fin q => if Qltb q 0%Q then NegInf else PosInf
  | NegInf, Fin q => if Qltb q 0%Q then PosInf else NegInf
  | Fin p, Fin q =>
      match (q ?= 0)%Q with
      | Eq => inf_of_sign p true
      | _ => Fin (p / q)%Q
      end
  end.

(** *** Rounding to binary64

    A binary64 has 53 significant bits and an exponent from -1022 to 1023.
    For a positive rational [n/d]: [floorLog2] is the [e] with
    [2^e <= n/d < 2^(e+1)]; the unit in the last place is [2^u] with
    [u = max e (-1022) - 52]; the result is the multiple of [2^u] nearest
    to [n/d], the even one of two, and infinity from [2^1024] on. *)

Definition floorLog2 (n d : positive) : Z :=
  let k := (Z.log2 (Zpos n) - Z.log2 (Zpos d))%Z in
  if (0 <=? k)%Z
  then if (Zpos d * 2 ^ k <=? Zpos n)%Z then k else (k - 1)%Z
  else if (Zpos d <=? Zpos n * 2 ^ (- k))%Z then k else (k - 1)%Z.

(** The integer nearest to [N/D]; of two, the even one. *)
Definition nearestEven (N D : Z) : Z :=
  let q := (N / D)%Z in
  let r := (N mod D)%Z in
  if (2 * r <? D)%Z then q
  else if (D <? 2 * r)%Z then (q + 1)%Z
  else if Z.even q then q else (q + 1)%Z.

(** The binary64 nearest to [n/d], in lowest terms; [None] is overflow. *)
Definition round64_pos (n d : positive) : option Q :=
  let e := floorLog2 n d in
  let u := (Z.max e (-1022) - 52)%Z in
  let r :=
    if (0 <? u)%Z then inject_Z (nearestEven (Zpos n) (Zpos d * 2 ^ u) * 2 ^ u)
    else Qred (nearestEven (Zpos n * 2 ^ (- u)) (Zpos d) # Z.to_pos (2 ^ (- u))) in
  if Qle_bool (inject_Z (2 ^ 1024)) r then None else Some r.

Definition round64 (q : Q) : number :=
  let q := Qred q in
  match Qnum q with
  | Z0 => Fin 0%Q
  | Zpos n =>
      match round64_pos n (Qden q) with
      | Some r => Fin r
      | None => PosInf
      end
  | Zneg n =>
      match round64_pos n (Qden q) with
      | Some r => Fin (- r)%Q
      | None => NegInf
      end
  end.

Definition rounded (a : number) : number :=
  match a with
  | Fin q => round64 q
  | _ => a
  end.

(** [a + b] and [a / b] as the machine computes them. *)
Definition add64 (a b : number) : number := rounded (num_add a b).
Definition div64 (a b : number) : number := rounded (num_div a b).

(** *** Plain objects used as dictionaries of booleans

    The map holds the own properties.  [obj[k] = v] stores an own property,
    except for the key [__proto__] on an object that has no own property of
    that name: the assignment then runs the setter inherited from
    [Object.prototype], which ignores a value that is not an object.
    (A computed key in an object literal, [{...prev, [k]: v}], always
    defines an own property: that is the map's insert.) *)
Definition objSet (k : string) (v : bool) (m : gmap string bool) : gmap string bool :=
  match m !! k with
  | Some _ => <[k := v]> m
  | None => if String.eqb k "__proto__" then m else <[k := v]> m
  end.

(** The names [Object.prototype] gives to every plain object; each is a
    function or an object, hence truthy. *)
Definition objectPrototypeKeys : list string :=
  [ "constructor"; "__defineGetter__"; "__defineSetter__"; "hasOwnProperty";
    "__lookupGetter__"; "__lookupSetter__"; "isPrototypeOf";
    "propertyIsEnumerable"; "toString"; "valueOf"; "__proto__";
    "toLocaleString" ].

(** Whether [obj[k]] is truthy: the own property if there is one, else
    what the object inherits. *)
Definition objTruthy (m : gmap string bool) (k : string) : bool :=
  match m !! k with
  | Some b => b
  | None => bool_decide (k ∈ objectPrototypeKeys)
  end.

(** *** [Number.parseInt] with no radix

    Strings are sequences of code units below 256.  The steps are those of
    the language definition: skip leading white space, read a sign, read the
    prefix [0x] or [0X] (radix 16, else radix 10), take the longest run of
    digits of the radix; no digit gives NaN.  The value is the integer read,
    kept exact: it is the number [Number.parseInt] answers for every integer
    of at most [2^53] in absolute value; beyond, the machine answers the
    nearest binary64. *)

Definition isStrWhiteSpaceChar (c : ascii) : bool :=
  let n := N_of_ascii c in
  ((9 <=? n) && (n <=? 13) || (n =? 32) || (n =? 160))%N.

Fixpoint trimStart (s : string) : string :=
  match s with
  | String c s' => if isStrWhiteSpaceChar c then trimStart s' else s
  | EmptyString => EmptyString
  end.

Definition digitValue (c : ascii) : option Z :=
  let n := Z.of_N (N_of_ascii c) in
  if ((48 <=? n) && (n <=? 57))%Z then Some (n - 48)%Z
  else if ((97 <=? n) && (n <=? 122))%Z then Some (n - 87)%Z
  else if ((65 <=? n) && (n <=? 90))%Z then Some (n - 55)%Z
  else None.

Definition radixDigit (R : Z) (c : ascii) : option Z :=
  match digitValue c with
  | Some d => if (d <? R)%Z then Some d else None
  | None => None
  end.

(** The longest prefix of digits of radix [R], read left to right; [acc] is
    [None] until a digit has been read. *)
Fixpoint parseDigits (R : Z) (s : string) (acc : option Z) : option Z :=
  match s with
  | String c s' =>
      match radixDigit R c with
      | Some d => parseDigits R s' (Some (R * default 0%Z acc + d)%Z)
      | None => acc
      end
  | EmptyString => acc
  end.

Definition stripSign (s : string) : Z * string :=
  match s with
  | String "-" s' => ((-1)%Z, s')
  | String "+" s' => (1%Z, s')
  | _ => (1%Z, s)
  end.

Definition stripPrefix (s : string) : Z * string :=
  match s with
  | String "0" (String "x" s') => (16%Z, s')
  | String "0" (String "X" s') => (16%Z, s')
  | _ => (10%Z, s)
  end.

(** The integer [parseInt] reads, [None] where it answers NaN. *)
Definition parseInt_int (s : string) : option Z :=
  let '(sign, s1) := stripSign (trimStart s) in
  let '(R, s2) := stripPrefix s1 in
  match parseDigits R s2 None with
  | Some v => Some (sign * v)%Z
  | None => None
  end.

Definition parseInt (s : string) : number :=
  match parseInt_int s with
  | Some z => ofZ z
  | None => NaN
  end.

(** A string that is empty or starts with a decimal digit. *)
Definition digitHead (s : string) : Prop :=
  match s with
  | String c _ => ∃ d, (d < 10)%N ∧ c = pretty_N_char d
  | EmptyString => True
  end.

(** The line feed, the separator of [join("\n")]. *)
Definition newline : string := String "010" EmptyString.

(** *** [Math.floor], [Math.min], [Math.max] *)

Definition Math_floor (a : number) : number :=
  match a with
  | Fin q => ofZ (Qfloor q)
  | _ => a
  end.

(** [Math.min(...values)]: NaN if one argument is NaN, else the least one,
    starting from [+Infinity]. *)
Fixpoint min_from (lowest : number) (values : list number) : number :=
  match values with
  | [] => lowest
  | NaN :: _ => NaN
  | v :: rest => min_from (if num_lt v lowest then v else lowest) rest
  end.
Definition Math_min (values : list number) : number := min_from PosInf values.

Fixpoint max_from (highest : number) (values : list number) : number :=
  match values with
  | [] => highest
  | NaN :: _ => NaN
  | v :: rest => max_from (if num_gt v highest then v else highest) rest
  end.
Definition Math_max (values : list number) : number := max_from NegInf values.

(** *** Dates

    A [Date] is its time value, an integer count of milliseconds since the
    epoch of at most 8.64e15 in absolute value, or [None] for an invalid
    date (time value NaN). *)
Definition Date : Type := option Z.

(** [new Date(v)]: the time clip of [v]. *)
Definition new_Date (v : number) : Date :=
  match v with
  | Fin q =>
      if Qle_bool (Qabs q) (inject_Z 8640000000000000)
      then Some (if Qle_bool 0 q then Qfloor q else Qceiling q)
      else None
  | _ => None
  end.

Definition getTime (d : Date) : number :=
  match d with
  | Some t => ofZ t
  | None => NaN
  end.

(** Year, month (1-12) and day of the month of a day number counted from
    1970-01-01, in the proleptic Gregorian calendar. *)
Definition civil_from_days (days : Z) : Z * Z * Z :=
  let z := (days + 719468)%Z in
  let era := (z / 146097)%Z in
  let doe := (z - era * 146097)%Z in
  let yoe := ((doe - doe / 1460 + doe / 36524 - doe / 146096) / 365)%Z in
  let doy := (doe - (365 * yoe + yoe / 4 - yoe / 100))%Z in
  let mp := ((5 * doy + 2) / 153)%Z in
  let d := (doy - (153 * mp + 2) / 5 + 1)%Z in
  let m := (if mp <? 10 then mp + 3 else mp - 9)%Z in
  let y := (yoe + era * 400 + (if m <=? 2 then 1 else 0))%Z in
  (y, m, d).

Fixpoint zeros (n : nat) : string :=
  match n with
  | O => ""
  | S n => String "0" (zeros n)
  end.

(** The decimal digits of [z >= 0], padded with zeros on the left to at
    least [width] digits. *)
Definition pad (width : nat) (z : Z) : string :=
  let m := pretty (Z.to_N z) in
  zeros (width - String.length m) +:+ m.

Definition isoYear (y : Z) : string :=
  if ((0 <=? y) && (y <=? 9999))%Z then pad 4 y
  else if (y <? 0)%Z then "-" +:+ pad 6 (- y)
  else "+" +:+ pad 6 y.

(** The text [toISOString] gives for a valid time value. *)
Definition isoFormat (t : Z) : string :=
  let days := (t / 86400000)%Z in
  let ms := (t mod 86400000)%Z in
  let '(y, m, d) := civil_from_days days in
  isoYear y +:+ "-" +:+ pad 2 m +:+ "-" +:+ pad 2 d +:+ "T"
  +:+ pad 2 (ms / 3600000) +:+ ":" +:+ pad 2 (ms / 60000 mod 60) +:+ ":"
  +:+ pad 2 (ms / 1000 mod 60) +:+ "." +:+ pad 3 (ms mod 1000) +:+ "Z".

(** [toISOString]: [None] is the RangeError thrown on an invalid date. *)
Definition toISOString (d : Date) : option string := isoFormat <$> d.

(** *** Numbers as text

    [Number_toString] is the conversion of a number to a string that
    template literals apply (the shortest decimal text that reads back as
    the same binary64).  It is a parameter of the development. *)
Section Text.
Variable Number_toString : number → string.

(** [x.toFixed(f)]: below 1e21 in absolute value, the integer [n] with
    [n / 10^f] nearest to [x] (the larger one of two), written with [f]
    digits after the point; a minus sign in front for [x < 0]. *)
Definition toFixed (x : number) (f : nat) : string :=
  match x with
  | Fin q =>
      if Qle_bool (inject_Z (10 ^ 21)) (Qabs q) then Number_toString x
      else
        let n := Qfloor (Qabs q * inject_Z (10 ^ Z.of_nat f) + (1 # 2)) in
        let m := pad (S f) n in
        let k := String.length m in
        let m :=
          match f with
          | O => m
          | _ => substring 0 (k - f) m +:+ "." +:+ substring (k - f) f m
          end in
        if Qltb q 0 then "-" +:+ m else m
  | _ => Number_toString x
  end.

End Text.


End JS.

(** ** The fetch API, as far as the pages look at it *)

(** What an awaited [fetch] followed by [response.json()] gives: the promise
    is rejected (a network exception), or there is a response with a status;
    [body] is the decoded JSON of the response, [None] when decoding throws. *)
Inductive fetched (A : Type) : Type :=
  | Rejected
  | Response (status : Z) (body : option A).
Arguments Rejected {A}.
Arguments Response {A} status body.

(** [response.ok]: the status is in the range 200-299. *)
Definition ok (status : Z) : bool := ((200 <=? status) && (status <=? 299))%Z.

(** A request that failed: the promise was rejected, the status is not in
    the range 200-299, or the body could not be decoded. *)
Definition failed {A : Type} (a : fetched A) : Prop :=
  match a with
  | Rejected => True
  | Response status body => ok status = false ∨ body = None
  end.

(** ** [src/app/dashboard/page.tsx] *)

Module Dashboard.
Import JS.

Module DeviceData.
Record t : Type := mk {
  id : string;
  device_id : string;
  temperature : number;
  humidity : number;
  pressure : number;
  co : number;
  co2 : number;
  methane : number;
  lpg : number;
  pm25 : number;
  pm10 : number;
  noise : number;
  light : number;
  recorded_at : string
}.
End DeviceData.

Module Device.
Record t : Type := mk {
  device_id : string;
  device_name : string;
  device_imei : string;
  is_active : bool;
  user_id : string;
  createdAt : string;
  updatedAt : string
}.
End Device.

(** The [useState] cells of [DashboardPage]. *)
Record State : Type := mkState {
  devices : list Device.t;
  selectedDevice : string;
  deviceData : option DeviceData.t;
  loading : bool;
  dataLoading : bool;
  error : string;
  autoRefresh : bool;
  deviceStatuses : gmap string bool
}.

Definition setDevices (v : list Device.t) (s : State) : State :=
  mkState v (selectedDevice s) (deviceData s) (loading s) (dataLoading s)
          (error s) (autoRefresh s) (deviceStatuses s).
Definition setSelectedDevice (v : string) (s : State) : State :=
  mkState (devices s) v (deviceData s) (loading s) (dataLoading s)
          (error s) (autoRefresh s) (deviceStatuses s).
Definition setDeviceData (v : option DeviceData.t) (s : State) : State :=
  mkState (devices s) (selectedDevice s) v (loading s) (dataLoading s)
          (error s) (autoRefresh s) (deviceStatuses s).
Definition setLoading (v : bool) (s : State) : State :=
  mkState (devices s) (selectedDevice s) (deviceData s) v (dataLoading s)
          (error s) (autoRefresh s) (deviceStatuses s).
Definition setDataLoading (v : bool) (s : State) : State :=
  mkState (devices s) (selectedDevice s) (deviceData s) (loading s) v
          (error s) (autoRefresh s) (deviceStatuses s).
Definition setError (v : string) (s : State) : State :=
  mkState (devices s) (selectedDevice s) (deviceData s) (loading s)
          (dataLoading s) v (autoRefresh s) (deviceStatuses s).
(** [setDeviceStatuses] takes the updater form, a function of the map in
    the store; [setDeviceStatuses(statuses)] is the constant updater. *)
Definition setDeviceStatuses (f : gmap string bool → gmap string bool)
    (s : State) : State :=
  mkState (devices s) (selectedDevice s) (deviceData s) (loading s)
          (dataLoading s) (error s) (autoRefresh s) (f (deviceStatuses s)).

(** [isDeviceOnline]; [now] is what [Date.now()] answers, in milliseconds. *)
Definition isDeviceOnline (now : Z) (device : Device.t)
    (latestData : option DeviceData.t) : bool :=
  match latestData with
  | None => false
  | Some latestData =>
      let lastUpdate := num_mul (parseInt (DeviceData.recorded_at latestData)) (ofZ 1000) in
      num_le (num_sub (ofZ now) lastUpdate) (ofZ 20000)
  end.

(** One probe of the status loop: the answer to
    [GET /data/latest/{device_id}] and the clock when it is looked at. *)
Record probe : Type := mkProbe {
  answer : fetched DeviceData.t;
  clock : Z
}.

(** The body of the [for] loop of [fetchDevices]: the value stored at
    [statuses[device.device_id]]. *)
Definition probeStatus (device : Device.t) (p : probe) : bool :=
  match answer p with
  | Response status body =>
      if ok status then
        match body with
        | Some deviceData => isDeviceOnline (clock p) device (Some deviceData)
        | None => false
        end
      else false
  | Rejected => false
  end.

(** The [for] loop: [probes i] is the outcome of the probe of the [i]-th
    iteration, [statuses] the object built so far. *)
Fixpoint statusLoop (probes : nat → probe) (i : nat) (data : list Device.t)
    (statuses : gmap string bool) : gmap string bool :=
  match data with
  | [] => statuses
  | device :: rest =>
      statusLoop probes (S i) rest
        (objSet (Device.device_id device) (probeStatus device (probes i)) statuses)
  end.

Definition probeFailed (p : probe) : Prop := failed (answer p).

(** [d] at index [j] is the last device of [data] with its identifier. *)
Definition lastWithId (data : list Device.t) (j : nat) (d : Device.t) : Prop :=
  data !! j = Some d
  ∧ ∀ j' d', j < j' → data !! j' = Some d' →
             Device.device_id d' ≠ Device.device_id d.

(** The entry of every device of [L] whose probe failed is false in
    [statuses], whichever devices share its identifier. *)
Definition failedProbeGivesFalse (L : list Device.t) (probes : nat → probe)
    (statuses : gmap string bool) : Prop :=
  ∀ j d, L !! j = Some d → probeFailed (probes j) →
         statuses !! Device.device_id d = Some false.

(** A change of the status map from [before] to [after] that leaves the
    entry of every identifier outside [touched] as it was. *)
Definition keepsOthers (touched : list string) (before after : gmap string bool) : Prop :=
  ∀ k, k ∉ touched → after !! k = before !! k.

(** [fetchDeviceData] up to its [await]: nothing for an empty identifier. *)
Definition fetchDeviceData_begin (deviceId : string) (showLoading : bool)
    (s : State) : State :=
  if String.eqb deviceId "" then s
  else
    let s := if showLoading then setDataLoading true s else s in
    setError "" s.

(** [fetchDeviceData] from the answer on; [r] is the render the call was
    made in, whose [devices] the function closed over, and [s] the store at
    the time of the answer. *)
Definition fetchDeviceData_settle (r : State) (deviceId : string)
    (showLoading : bool) (a : fetched DeviceData.t) (now : Z) (s : State) : State :=
  let s :=
    match a with
    | Response status body =>
        if ok status then
          match body with
          | Some data =>
              let s := setDeviceData (Some data) s in
              match List.find (fun d => String.eqb (Device.device_id d) deviceId) (devices r) with
              | Some device =>
                  setDeviceStatuses
                    (fun prev => <[deviceId := isDeviceOnline now device (Some data)]> prev) s
              | None => s
              end
          | None => setError "Network error" (setDeviceData None s)
          end
        else if (status =? 404)%Z then
          setDeviceStatuses (fun prev => <[deviceId := false]> prev)
            (setError "No data available for this device" (setDeviceData None s))
        else setError "Failed to fetch device data" (setDeviceData None s)
    | Rejected => setError "Network error" (setDeviceData None s)
    end in
  if showLoading then setDataLoading false s else s.

(** A whole call of [fetchDeviceData] with nothing else in between. *)
Definition fetchDeviceData (r : State) (deviceId : string) (showLoading : bool)
    (a : fetched DeviceData.t) (now : Z) (s : State) : State :=
  if String.eqb deviceId "" then s
  else fetchDeviceData_settle r deviceId showLoading a now
         (fetchDeviceData_begin deviceId showLoading s).

(** [fetchDevices]: [r] is the render the call was made in, [deviceParam]
    what [searchParams.get("device")] answers there, [a] the answer to
    [GET /devices].  The call [fetchDeviceData(data[0].device_id)] at the
    end is not awaited: it runs up to its own [await] here, and its answer
    is a later [fetchDeviceData_settle]. *)
Definition fetchDevices (r : State) (deviceParam : option string)
    (a : fetched (list Device.t)) (probes : nat → probe) (s : State) : State :=
  let s :=
    match a with
    | Response status body =>
        if ok status then
          match body with
          | Some data =>
              let s := setDevices data s in
              let statuses := statusLoop probes 0 data ∅ in
              let s := setDeviceStatuses (fun _ => statuses) s in
              match data with
              | first :: _ =>
                  if String.eqb (selectedDevice r) ""
                     && String.eqb (default "" deviceParam) "" then
                    fetchDeviceData_begin (Device.device_id first) true
                      (setSelectedDevice (Device.device_id first) s)
                  else s
              | [] => s
              end
          | None => setError "Network error" s
          end
        else setError "Failed to fetch devices" s
    | Rejected => setError "Network error" s
    end in
  setLoading false s.

(** [getStatusColor]. *)
Definition getStatusColor (value : number) (type : string) : string :=
  if String.eqb type "temperature" then
    if num_lt value (ofZ 18) || num_gt value (ofZ 26) then "text-red-600"
    else "text-green-600"
  else if String.eqb type "humidity" then
    if num_lt value (ofZ 30) || num_gt value (ofZ 70) then "text-yellow-600"
    else "text-green-600"
  else if String.eqb type "co" then
    if num_gt value (ofZ 3) then "text-red-600" else "text-green-600"
  else if String.eqb type "pm25" then
    if num_gt value (ofZ 300) then "text-red-600"
    else if num_gt value (ofZ 150) then "text-yellow-600"
    else "text-green-600"
  else "text-gray-600".

(** [handleDeviceChange] up to the [await] of its [fetchDeviceData]; the
    second component is the value [replaceState] gives to the [device]
    parameter of the location. *)
Definition handleDeviceChange (deviceId : string) (s : State) : State * string :=
  let s := setSelectedDevice deviceId s in
  let s := setError "" s in
  let s := setDeviceData None s in
  (fetchDeviceData_begin deviceId true s, deviceId).

(** The effect on [searchParams] and [devices]: [r] is the render it runs
    after, [deviceParam] what [searchParams.get("device")] answers. *)
Definition deviceParamEffect (r : State) (deviceParam : option string)
    (s : State) : State :=
  match deviceParam with
  | Some deviceParam =>
      if negb (String.eqb deviceParam "") && negb (Nat.eqb (length (devices r)) 0) then
        match List.find (fun d => String.eqb (Device.device_id d) deviceParam) (devices r) with
        | Some _ =>
            fetchDeviceData_begin deviceParam true (setSelectedDevice deviceParam s)
        | None => s
        end
      else s
  | None => s
  end.

(** [refreshData] up to the first [await]: [fetchDevices] writes nothing
    before its answer. *)
Definition refreshData (r : State) (s : State) : State :=
  if String.eqb (selectedDevice r) "" then s
  else fetchDeviceData_begin (selectedDevice r) true s.

(** *** What is rendered

    The conditionals of the returned markup.  [None] is the spinner shown
    while [loading]; otherwise the error banner, the entries of the device
    selector (class of the dot, name) and the panels below, in order. *)
Inductive panel : Type :=
  | NoDevicesFound
  | MetricCards (deviceData : DeviceData.t) (badge : string)
  | NoDataAvailable
  | LoadingData.

Record Page : Type := mkPage {
  alert : option string;
  items : list (string * string);
  panels : list panel
}.

(** [deviceStatuses[id] ? a : b]. *)
Definition statusOf (s : State) (id : string) : bool :=
  objTruthy (deviceStatuses s) id.

Definition render (s : State) : option Page :=
  if loading s then None
  else
    Some (mkPage
      (if String.eqb (error s) "" then None else Some (error s))
      (List.map
         (fun device =>
            (if statusOf s (Device.device_id device) then "bg-green-500" else "bg-red-500",
             Device.device_name device))
         (devices s))
      ((match devices s with
        | [] => [NoDevicesFound]
        | _ =>
            match deviceData s with
            | Some deviceData =>
                [MetricCards deviceData
                   (if statusOf s (selectedDevice s) then "Online" else "Offline")]
            | None => if dataLoading s then [] else [NoDataAvailable]
            end
        end)
       ++ (if dataLoading s then [LoadingData] else []))).

End Dashboard.

(** ** [src/app/analytics/page.tsx] *)

Module Analytics.
Import JS.

Module Device.
Record t : Type := mk {
  device_id : string;
  device_name : string;
  device_imei : string;
  is_active : bool;
  user_id : string;
  createdAt : string;
  updatedAt : string
}.
End Device.

Module RangeData.
Record t : Type := mk {
  id : string;
  device_id : string;
  temperature : number;
  humidity : number;
  pressure : number;
  co : number;
  co2 : number;
  methane : number;
  lpg : number;
  pm25 : number;
  pm10 : number;
  noise : number;
  light : number;
  recorded_at : string
}.
End RangeData.

(** The [useState] cells of [AnalyticsPage]. *)
Record State : Type := mkState {
  devices : list Device.t;
  selectedDevice : string;
  rangeData : list RangeData.t;
  loading : bool;
  dataLoading : bool;
  error : string;
  startDate : option Date;
  endDate : option Date;
  autoRefresh : bool
}.

Definition setRangeData (v : list RangeData.t) (s : State) : State :=
  mkState (devices s) (selectedDevice s) v (loading s) (dataLoading s)
          (error s) (startDate s) (endDate s) (autoRefresh s).
Definition setDataLoading (v : bool) (s : State) : State :=
  mkState (devices s) (selectedDevice s) (rangeData s) (loading s) v
          (error s) (startDate s) (endDate s) (autoRefresh s).
Definition setError (v : string) (s : State) : State :=
  mkState (devices s) (selectedDevice s) (rangeData s) (loading s)
          (dataLoading s) v (startDate s) (endDate s) (autoRefresh s).

(** The query of [fetchRangeData]: device, [from_ts] and [to_ts]; [None]
    when the function returns before any request. *)
Definition rangeQuery (r : State) : option (string * number * number) :=
  match startDate r, endDate r with
  | Some startDate, Some endDate =>
      if String.eqb (selectedDevice r) "" then None
      else
        let startTimestamp := Math_floor (num_div (getTime startDate) (ofZ 1000)) in
        let endTimestamp := Math_floor (num_div (getTime endDate) (ofZ 1000)) in
        Some (selectedDevice r, startTimestamp, endTimestamp)
  | _, _ => None
  end.

(** [fetchRangeData]: [r] is the render the call was made in, [a] the
    answer to [GET /data/range], [s] the store. *)
Definition fetchRangeData (r : State) (a : fetched (list RangeData.t))
    (s : State) : State :=
  match rangeQuery r with
  | None => s
  | Some _ =>
      let s := setError "" (setDataLoading true s) in
      let s :=
        match a with
        | Response status body =>
            if ok status then
              match body with
              | Some data => setRangeData data s
              | None => setError "Network error" s
              end
            else setError "Failed to fetch range data" s
        | Rejected => setError "Network error" s
        end in
      setDataLoading false s
  end.

(** The [dataKey] of a chart configuration. *)
Inductive dataKey : Type :=
  | Temperature | Humidity | Pressure | Co | Co2 | Methane | Lpg
  | Pm25 | Pm10 | Noise | Light.

(** [d[config.dataKey]]. *)
Definition field (k : dataKey) (d : RangeData.t) : number :=
  match k with
  | Temperature => RangeData.temperature d
  | Humidity => RangeData.humidity d
  | Pressure => RangeData.pressure d
  | Co => RangeData.co d
  | Co2 => RangeData.co2 d
  | Methane => RangeData.methane d
  | Lpg => RangeData.lpg d
  | Pm25 => RangeData.pm25 d
  | Pm10 => RangeData.pm10 d
  | Noise => RangeData.noise d
  | Light => RangeData.light d
  end.

(** The rows of [chartConfigs], in the order of the source: title and key. *)
Definition chartConfigs : list (string * dataKey) :=
  [ ("Temperature", Temperature); ("Humidity", Humidity);
    ("Atmospheric Pressure", Pressure); ("Carbon Monoxide", Co);
    ("Carbon Dioxide", Co2); ("Methane", Methane); ("LPG", Lpg);
    ("PM2.5", Pm25); ("PM10", Pm10); ("Noise Level", Noise);
    ("Light Level", Light) ].

(** The statistics a chart card computes from the loaded collection. *)
Definition values (k : dataKey) (rangeData : list RangeData.t) : list number :=
  List.map (field k) rangeData.
Definition avgValue (values : list number) : number :=
  div64 (fold_left add64 values (ofZ 0)) (ofZ (Z.of_nat (length values))).
Definition minValue (values : list number) : number := Math_min values.
Definition maxValue (values : list number) : number := Math_max values.

(** *** Words of the specification

    The sum and the arithmetic mean of a list of rationals, the ten sensor
    fields of a CSV row in the order of the header, and the time stamp of a
    row that reads as a date. *)
Definition sum (qs : list Q) : Q := fold_right Qplus 0%Q qs.
Definition mean (qs : list Q) : Q := (sum qs / inject_Z (Z.of_nat (length qs)))%Q.



Definition csvColumns (row : RangeData.t) : list number :=
  [ RangeData.temperature row; RangeData.humidity row; RangeData.pressure row;
    RangeData.co row; RangeData.methane row; RangeData.lpg row;
    RangeData.pm25 row; RangeData.pm10 row; RangeData.noise row;
    RangeData.light row ].

(** [recorded_at] reads as a count [t] of seconds within the range of dates. *)
Definition timestamp (row : RangeData.t) (t : Z) : Prop :=
  parseInt_int (RangeData.recorded_at row) = Some t
  ∧ (- 8640000000000000 <= t * 1000 <= 8640000000000000)%Z.

Definition timestampText (row : RangeData.t) : string :=
  match parseInt_int (RangeData.recorded_at row) with
  | Some t => isoFormat (t * 1000)
  | None => ""
  end.

(** The same reading with another value of CO2. *)
Definition with_co2 (v : number) (row : RangeData.t) : RangeData.t :=
  RangeData.mk (RangeData.id row) (RangeData.device_id row)
    (RangeData.temperature row) (RangeData.humidity row) (RangeData.pressure row)
    (RangeData.co row) v (RangeData.methane row) (RangeData.lpg row)
    (RangeData.pm25 row) (RangeData.pm10 row) (RangeData.noise row)
    (RangeData.light row) (RangeData.recorded_at row).

Section Text.
Variable Number_toString : number → string.
(** [format(date, "yyyy-MM-dd")] of date-fns on a valid time value, in the
    time zone of the browser. *)
Variable format_yMd : Z → string.

(** The three texts under a chart: [minValue.toFixed(1)],
    [avgValue.toFixed(1)], [maxValue.toFixed(1)]. *)
Definition statistics (k : dataKey) (rangeData : list RangeData.t)
    : string * string * string :=
  let values := values k rangeData in
  (toFixed Number_toString (minValue values) 1,
   toFixed Number_toString (avgValue values) 1,
   toFixed Number_toString (maxValue values) 1).

(** The chart grid: rendered only for a collection that is not empty, one
    card per row of [chartConfigs]. *)
Definition charts (rangeData : list RangeData.t)
    : option (list (string * (string * string * string))) :=
  match rangeData with
  | [] => None
  | _ => Some (List.map (fun c => (fst c, statistics (snd c) rangeData)) chartConfigs)
  end.

Definition csvHeader : string :=
  "Timestamp,Temperature,Humidity,Pressure,CO,Methane,LPG,PM2.5,PM10,Noise,Light".

(** The template literal of a data row; [None] when [toISOString] throws. *)
Definition csvRow (row : RangeData.t) : option string :=
  iso ← toISOString (new_Date (num_mul (parseInt (RangeData.recorded_at row)) (ofZ 1000)));
  Some (iso +:+ "," +:+ Number_toString (RangeData.temperature row)
        +:+ "," +:+ Number_toString (RangeData.humidity row)
        +:+ "," +:+ Number_toString (RangeData.pressure row)
        +:+ "," +:+ Number_toString (RangeData.co row)
        +:+ "," +:+ Number_toString (RangeData.methane row)
        +:+ "," +:+ Number_toString (RangeData.lpg row)
        +:+ "," +:+ Number_toString (RangeData.pm25 row)
        +:+ "," +:+ Number_toString (RangeData.pm10 row)
        +:+ "," +:+ Number_toString (RangeData.noise row)
        +:+ "," +:+ Number_toString (RangeData.light row)).

(** [[header, ...rows].join("\n")]. *)
Definition csvContent (rangeData : list RangeData.t) : option string :=
  rows ← mapM csvRow rangeData;
  Some (String.concat newline (csvHeader :: rows)).

(** A row as the specification words it: the time stamp as text, then the
    ten sensor fields, separated by commas. *)
Definition csvLine (row : RangeData.t) : string :=
  String.concat "," (timestampText row :: (Number_toString <$> csvColumns row)).

(** The file handed to the browser by [a.click()]. *)
Record Download : Type := mkDownload {
  download : string;
  type : string;
  content : string
}.

(** [format(date!, "yyyy-MM-dd")]: throws on a missing or invalid date. *)
Definition formatDate (d : option Date) : option string :=
  match d with
  | Some (Some t) => Some (format_yMd t)
  | _ => None
  end.

(** [exportData]: [r] is the render the handler belongs to, [s] the
    store.  The result is [None] when an exception leaves the handler,
    else the store and the files created. *)
Definition exportData (r : State) (s : State) : option (State * list Download) :=
  match rangeData r with
  | [] => Some (s, [])
  | _ =>
      csvContent ← csvContent (rangeData r);
      from ← formatDate (startDate r);
      to ← formatDate (endDate r);
      Some (s, [mkDownload
                  ("environmental_data_" +:+ selectedDevice r +:+ "_" +:+ from
                   +:+ "_to_" +:+ to +:+ ".csv")
                  "text/csv" csvContent])
  end.

End Text.

Definition setDevices (v : list Device.t) (s : State) : State :=
  mkState v (selectedDevice s) (rangeData s) (loading s) (dataLoading s)
          (error s) (startDate s) (endDate s) (autoRefresh s).
Definition setSelectedDevice (v : string) (s : State) : State :=
  mkState (devices s) v (rangeData s) (loading s) (dataLoading s)
          (error s) (startDate s) (endDate s) (autoRefresh s).
Definition setLoading (v : bool) (s : State) : State :=
  mkState (devices s) (selectedDevice s) (rangeData s) v (dataLoading s)
          (error s) (startDate s) (endDate s) (autoRefresh s).

(** [fetchDevices] of the analytics page; [a] is the answer to
    [GET /devices]. *)
Definition fetchDevices (a : fetched (list Device.t)) (s : State) : State :=
  let s :=
    match a with
    | Response status body =>
        if ok status then
          match body with
          | Some data =>
              let s := setDevices data s in
              match data with
              | first :: _ => setSelectedDevice (Device.device_id first) s
              | [] => s
              end
          | None => setError "Network error" s
          end
        else setError "Failed to fetch devices" s
    | Rejected => setError "Network error" s
    end in
  setLoading false s.

(** [values[values.length - 1]]: [None] is [undefined]. *)
Definition currentValue (values : list number) : option number := last values.

(** An element of [chartData]. *)
Module ChartItem.
Record t : Type := mk {
  timestamp : string;
  fullTimestamp : string;
  temperature : number;
  humidity : number;
  pressure : number;
  co : number;
  methane : number;
  lpg : number;
  pm25 : number;
  pm10 : number;
  noise : number;
  light : number
}.
End ChartItem.

(** [item[dataKey]], what the line of a chart reads from an element of
    [chartData]; [None] is [undefined], a property the element lacks. *)
Definition chartField (k : dataKey) (item : ChartItem.t) : option number :=
  match k with
  | Temperature => Some (ChartItem.temperature item)
  | Humidity => Some (ChartItem.humidity item)
  | Pressure => Some (ChartItem.pressure item)
  | Co => Some (ChartItem.co item)
  | Co2 => None
  | Methane => Some (ChartItem.methane item)
  | Lpg => Some (ChartItem.lpg item)
  | Pm25 => Some (ChartItem.pm25 item)
  | Pm10 => Some (ChartItem.pm10 item)
  | Noise => Some (ChartItem.noise item)
  | Light => Some (ChartItem.light item)
  end.

Section Charts.
(** [toLocaleTimeString] and [toLocaleString] of a date, which depend on
    the locale and the time zone of the browser. *)
Variable toLocaleTimeString : Date → string.
Variable toLocaleString : Date → string.

Definition chartData (rangeData : list RangeData.t) : list ChartItem.t :=
  List.map
    (fun item =>
       let date := new_Date (num_mul (parseInt (RangeData.recorded_at item)) (ofZ 1000)) in
       ChartItem.mk (toLocaleTimeString date) (toLocaleString date)
         (RangeData.temperature item) (RangeData.humidity item)
         (RangeData.pressure item) (RangeData.co item) (RangeData.methane item)
         (RangeData.lpg item) (RangeData.pm25 item) (RangeData.pm10 item)
         (RangeData.noise item) (RangeData.light item))
    rangeData.

End Charts.

End Analytics.

(** ** Sample data *)

Module Samples.
Import JS.

Definition dev1 : Dashboard.Device.t :=
  Dashboard.Device.mk "d1" "Lab" "860000000000001" true "u1" "2024-01-01" "2024-01-01".
Definition dev2 : Dashboard.Device.t :=
  Dashboard.Device.mk "d2" "Roof" "860000000000002" true "u1" "2024-01-01" "2024-01-01".

(** A second device announced under the identifier of [dev1]. *)
Definition dev1b : Dashboard.Device.t :=
  Dashboard.Device.mk "d1" "Lab (copy)" "860000000000003" true "u1" "2024-01-01" "2024-01-01".

(** A reading of device [d1] recorded at [recorded_at]. *)
Definition reading (recorded_at : string) : Dashboard.DeviceData.t :=
  Dashboard.DeviceData.mk "r1" "d1" (ofZ 22) (ofZ 45) (ofZ 1013) (ofZ 1) (ofZ 400)
    (ofZ 0) (ofZ 0) (ofZ 12) (ofZ 20) (ofZ 40) (ofZ 300) recorded_at.

(** The dashboard before anything is loaded. *)
Definition dashboard0 : Dashboard.State :=
  Dashboard.mkState [] "" None true false "" false ∅.

(** A dashboard showing device [d2] online, with a reading on display. *)
Definition dashboard1 : Dashboard.State :=
  Dashboard.mkState [dev1; dev2] "d2" (Some (reading "1700000000")) false false ""
    false {[ "d2" := true ]}.

(** Every probe is answered with 404 at the same instant. *)
Definition probes404 (i : nat) : Dashboard.probe :=
  Dashboard.mkProbe (Response 404 None) 1700000000000.

(** The first probe is rejected by the network, the later ones are
    answered with a reading five seconds old. *)
Definition probesMixed (i : nat) : Dashboard.probe :=
  match i with
  | O => Dashboard.mkProbe Rejected 1700000005000
  | S _ => Dashboard.mkProbe (Response 200 (Some (reading "1700000000"))) 1700000005000
  end.

(** A range reading of device [d1] with the given temperature. *)
Definition row (temperature : Z) (recorded_at : string) : Analytics.RangeData.t :=
  Analytics.RangeData.mk "r1" "d1" (ofZ temperature) (ofZ 45) (ofZ 1013) (ofZ 1)
    (ofZ 400) (ofZ 0) (ofZ 0) (ofZ 12) (ofZ 20) (ofZ 40) (ofZ 300) recorded_at.

(** Two readings whose temperatures are the binary64 values written 0.01
    and 2.29. *)
Definition rowQ (temperature : Q) (recorded_at : string) : Analytics.RangeData.t :=
  Analytics.RangeData.mk "r1" "d1" (Fin temperature) (ofZ 45) (ofZ 1013) (ofZ 1)
    (ofZ 400) (ofZ 0) (ofZ 0) (ofZ 12) (ofZ 20) (ofZ 40) (ofZ 300) recorded_at.

Definition rows2 : list Analytics.RangeData.t :=
  [ rowQ (5764607523034235 # 576460752303423488) "1700000000";
    rowQ (2578310786669609 # 1125899906842624) "1700000060" ].

Definition rows3 : list Analytics.RangeData.t :=
  [row 20 "1700000000"; row 22 "1700000060"; row 24 "1700000120"].

(** The analytics page with three readings loaded for 2023-11-14. *)
Definition analytics1 : Analytics.State :=
  Analytics.mkState [] "d1" rows3 false false ""
    (Some (Some 1699920000000%Z)) (Some (Some 1700006400000%Z)) false.

(** The analytics page with nothing loaded. *)
Definition analytics0 : Analytics.State :=
  Analytics.mkState [] "d1" [] false false ""
    (Some (Some 1699920000000%Z)) (Some (Some 1700006400000%Z)) false.

(** A stand-in for the text of a number: right on the integers. *)
Definition integerText (x : number) : string :=
  match x with
  | Fin q => pretty (Qfloor q)
  | NaN => "NaN"
  | PosInf => "Infinity"
  | NegInf => "-Infinity"
  end.

(** A stand-in for [format(date, "yyyy-MM-dd")]: the UTC date. *)
Definition utcDate (t : Z) : string := substring 0 10 (isoFormat t).

End Samples.

(** * Properties *)

(** ** Numbers *)

Section Numbers.
Import JS.

Lemma Qltb_lt (p q : Q) : Qltb p q = true ↔ (p < q)%Q.
Proof.
  unfold Qltb. rewrite Qlt_alt.
  destruct (p ?= q)%Q; split; congruence.
Qed.

Lemma Qltb_ge (p q : Q) : Qltb p q = false ↔ (q <= p)%Q.
Proof.
  rewrite <- not_true_iff_false, Qltb_lt. split.
  - apply Qnot_lt_le.
  - apply Qle_not_lt.
Qed.

Lemma num_lt_Fin (p q : Q) : num_lt (Fin p) (Fin q) = true ↔ (p < q)%Q.
Proof. apply Qltb_lt. Qed.

Lemma num_gt_Fin (p q : Q) : num_gt (Fin p) (Fin q) = true ↔ (q < p)%Q.
Proof. apply Qltb_lt. Qed.

Lemma num_le_Fin (p q : Q) : num_le (Fin p) (Fin q) = true ↔ (p <= q)%Q.
Proof. cbn. rewrite negb_true_iff. apply Qltb_ge. Qed.

Lemma num_lt_Fin_false (p q : Q) : num_lt (Fin p) (Fin q) = false ↔ (q <= p)%Q.
Proof. apply Qltb_ge. Qed.

Lemma num_gt_Fin_false (p q : Q) : num_gt (Fin p) (Fin q) = false ↔ (p <= q)%Q.
Proof. apply Qltb_ge. Qed.

(** A comparison with NaN on either side is false. *)
Lemma NaN_compare (x : number) :
  num_lt NaN x = false ∧ num_lt x NaN = false ∧
  num_le NaN x = false ∧ num_le x NaN = false ∧
  num_gt NaN x = false ∧ num_gt x NaN = false.
Proof. destruct x; repeat split; reflexivity. Qed.

(** NaN goes through the arithmetic of [isDeviceOnline]. *)
Lemma NaN_arith (x : number) :
  num_mul NaN x = NaN ∧ num_sub x NaN = NaN.
Proof. destruct x; split; reflexivity. Qed.

Lemma parseInt_cases (s : string) :
  (parseInt_int s = None ∧ parseInt s = NaN)
  ∨ (∃ z, parseInt_int s = Some z ∧ parseInt s = ofZ z).
Proof.
  unfold parseInt. destruct (parseInt_int s) as [z|]; [right | left]; eauto.
Qed.

Lemma parseInt_NaN (s : string) : parseInt s = NaN ↔ parseInt_int s = None.
Proof.
  unfold parseInt. destruct (parseInt_int s); split; intros H; try discriminate; reflexivity.
Qed.

(** The elapsed time of an integer timestamp, compared as JS does, is the
    comparison of integers. *)
Lemma elapsed_le (now t : Z) :
  num_le (num_sub (ofZ now) (num_mul (ofZ t) (ofZ 1000))) (ofZ 20000) = true
  ↔ (now - t * 1000 <= 20000)%Z.
Proof.
  unfold ofZ. cbn [num_mul num_sub num_neg num_add].
  rewrite num_le_Fin.
  rewrite <- inject_Z_mult, <- inject_Z_opp, <- inject_Z_plus, <- Zle_Qle.
  lia.
Qed.

End Numbers.

(** ** The online-status evaluator *)

Section OnlineStatus.
Import JS Dashboard.

Lemma isDeviceOnline_int (now : Z) (device : Device.t) (R : DeviceData.t) :
  isDeviceOnline now device (Some R) = true
  ↔ ∃ t, parseInt_int (DeviceData.recorded_at R) = Some t
         ∧ (now - t * 1000 <= 20000)%Z.
Proof.
  unfold isDeviceOnline, parseInt.
  destruct (parseInt_int (DeviceData.recorded_at R)) as [t|].
  - rewrite elapsed_le. split.
    + intros H. exists t. split; [reflexivity | exact H].
    + intros (t' & Ht' & H). injection Ht' as ->. exact H.
  - cbn. split; [discriminate |]. intros (t & Ht & _). discriminate.
Qed.

(** C1: with no reading the evaluator answers false; with a reading [R] it
    answers the JS comparison [now - parseInt(R.recorded_at) * 1000 <= 20000],
    which is true exactly when [recorded_at] reads as an integer [t] of
    seconds with [now - t * 1000 <= 20000]; hence a timestamp in the future
    is reported online. *)
Theorem isDeviceOnline_threshold (now : Z) (device : Device.t) :
  isDeviceOnline now device None = false
  ∧ (∀ R, isDeviceOnline now device (Some R)
          = num_le (num_sub (ofZ now)
                      (num_mul (parseInt (DeviceData.recorded_at R)) (ofZ 1000)))
                   (ofZ 20000))
  ∧ (∀ R, isDeviceOnline now device (Some R) = true
          ↔ ∃ t, parseInt_int (DeviceData.recorded_at R) = Some t
                 ∧ (now - t * 1000 <= 20000)%Z)
  ∧ (∀ R t, parseInt_int (DeviceData.recorded_at R) = Some t →
            (now < t * 1000)%Z →
            isDeviceOnline now device (Some R) = true).
Proof.
  split; [reflexivity |]. split; [reflexivity |]. split.
  - intros R. apply isDeviceOnline_int.
  - intros R t Ht Hfuture. apply isDeviceOnline_int.
    exists t. split; [exact Ht | lia].
Qed.

(** C10: a reading whose [recorded_at] does not read as an integer has the
    timestamp NaN, NaN goes through the product and the difference, the
    comparison with NaN is false, and the evaluator answers false.  The
    evaluator is a total function: it answers on every input. *)
Theorem isDeviceOnline_unparsable (now : Z) (device : Device.t) (R : DeviceData.t) :
  parseInt_int (DeviceData.recorded_at R) = None →
  parseInt (DeviceData.recorded_at R) = NaN
  ∧ num_sub (ofZ now) (num_mul (parseInt (DeviceData.recorded_at R)) (ofZ 1000)) = NaN
  ∧ (∀ x, num_le NaN x = false)
  ∧ isDeviceOnline now device (Some R) = false.
Proof.
  intros H. apply parseInt_NaN in H.
  unfold isDeviceOnline. rewrite H.
  split; [reflexivity |]. split; [reflexivity |].
  split; [intros x; apply NaN_compare | reflexivity].
Qed.

(** An online reading ten seconds in the future, at 2023-11-14T22:13:20Z. *)
Lemma isDeviceOnline_threshold_witness :
  parseInt_int (DeviceData.recorded_at (Samples.reading "1700000010")) = Some 1700000010%Z
  ∧ (1700000000000 < 1700000010 * 1000)%Z
  ∧ isDeviceOnline 1700000000000 Samples.dev1 (Some (Samples.reading "1700000010")) = true.
Proof.
  split; [reflexivity |]. split; [lia |].
  apply (proj2 (proj2 (proj2 (isDeviceOnline_threshold 1700000000000 Samples.dev1)))
           (Samples.reading "1700000010") 1700000010%Z); [reflexivity | lia].
Defined.

Lemma isDeviceOnline_unparsable_witness :
  parseInt_int (DeviceData.recorded_at (Samples.reading "yesterday")) = None
  ∧ isDeviceOnline 1700000000000 Samples.dev1 (Some (Samples.reading "yesterday")) = false.
Proof.
  split; [reflexivity |].
  apply (isDeviceOnline_unparsable 1700000000000 Samples.dev1 (Samples.reading "yesterday")).
  reflexivity.
Defined.

End OnlineStatus.

(** ** The device status map *)

Section StatusMap.
Import JS Dashboard.

Lemma probeStatus_failed (d : Device.t) (p : probe) :
  probeFailed p → probeStatus d p = false.
Proof.
  unfold probeFailed, failed, probeStatus.
  destruct (answer p) as [|status body]; [reflexivity |].
  intros [-> | ->]; [reflexivity |]. destruct (ok status); reflexivity.
Qed.

(** In a list without repeated identifiers every device is the last one
    with its identifier. *)
Lemma lastWithId_NoDup (data : list Device.t) (j : nat) (d : Device.t) :
  NoDup (Device.device_id <$> data) → data !! j = Some d → lastWithId data j d.
Proof.
  intros Hnd Hj. split; [exact Hj |]. intros j' d' Hlt Hj' Heq.
  assert (j = j'); [| lia].
  apply (NoDup_lookup _ j j' (Device.device_id d) Hnd).
  - by rewrite list_lookup_fmap, Hj.
  - by rewrite list_lookup_fmap, Hj', <- Heq.
Qed.

(** *** Assignment to a plain object *)

Lemma objSet_lookup_ne k v (m : gmap string bool) k' :
  k ≠ k' → objSet k v m !! k' = m !! k'.
Proof.
  intros H. unfold objSet.
  destruct (m !! k); [by apply lookup_insert_ne |].
  destruct (String.eqb k "__proto__"); [reflexivity | by apply lookup_insert_ne].
Qed.

Lemma objSet_lookup_eq k v (m : gmap string bool) :
  k ≠ "__proto__" ∨ is_Some (m !! k) → objSet k v m !! k = Some v.
Proof.
  intros H. unfold objSet.
  destruct (m !! k) eqn:E; [apply lookup_insert_eq |].
  destruct H as [H | [? H]]; [| discriminate].
  apply String.eqb_neq in H. rewrite H. apply lookup_insert_eq.
Qed.

(** The assignment of a boolean to [__proto__] on an object without an own
    property of that name stores nothing. *)
Lemma objSet_proto v (m : gmap string bool) :
  m !! "__proto__" = None → objSet "__proto__" v m = m.
Proof. intros H. unfold objSet. by rewrite H. Qed.

Lemma objSet_dom k v (m : gmap string bool) :
  dom (objSet k v m) = dom m ∪ ({[k]} ∖ {["__proto__"]}).
Proof.
  unfold objSet. destruct (m !! k) eqn:E.
  - rewrite dom_insert_L. apply set_eq. intros x.
    rewrite !elem_of_union, elem_of_difference, !elem_of_singleton.
    split; [| intros [? | [-> _]]; auto].
    intros [-> | ?]; [| auto]. left. apply elem_of_dom. eauto.
  - destruct (String.eqb k "__proto__") eqn:Hk.
    + apply String.eqb_eq in Hk. subst. apply set_eq. intros x.
      rewrite !elem_of_union, elem_of_difference, !elem_of_singleton.
      split; [auto | intros [? | [? ?]]; done].
    + apply String.eqb_neq in Hk. rewrite dom_insert_L. apply set_eq. intros x.
      rewrite !elem_of_union, elem_of_difference, !elem_of_singleton.
      split; [intros [-> | ?]; auto | intros [? | [-> _]]; auto].
Qed.

Lemma statusLoop_lookup_other probes i data (m : gmap string bool) k :
  (∀ d, d ∈ data → Device.device_id d ≠ k) →
  statusLoop probes i data m !! k = m !! k.
Proof.
  revert i m. induction data as [|d data IH]; intros i m H; cbn; [done |].
  rewrite IH.
  - apply objSet_lookup_ne, H. left.
  - intros d' Hd'. apply H. by right.
Qed.

Lemma statusLoop_mono probes i data (m : gmap string bool) k :
  is_Some (m !! k) → is_Some (statusLoop probes i data m !! k).
Proof.
  revert i m. induction data as [|d data IH]; intros i m H; cbn; [done |].
  apply IH. destruct (decide (Device.device_id d = k)) as [<- | Hne].
  - rewrite objSet_lookup_eq; [eauto | by right].
  - by rewrite objSet_lookup_ne.
Qed.

Lemma statusLoop_covers probes i data (m : gmap string bool) d :
  d ∈ data → Device.device_id d ≠ "__proto__" →
  is_Some (statusLoop probes i data m !! Device.device_id d).
Proof.
  revert i m. induction data as [|d' data IH]; intros i m H Hid; cbn.
  - by apply not_elem_of_nil in H.
  - apply elem_of_cons in H as [-> | H].
    + apply statusLoop_mono. rewrite objSet_lookup_eq; [eauto | by left].
    + by apply IH.
Qed.

Lemma statusLoop_lookup_last probes i data (m : gmap string bool) j d :
  lastWithId data j d → Device.device_id d ≠ "__proto__" →
  statusLoop probes i data m !! Device.device_id d
  = Some (probeStatus d (probes (i + j))).
Proof.
  revert i m j. induction data as [|d0 data IH]; intros i m j [Hj Hlast] Hid; [done |].
  destruct j as [|j]; cbn in Hj |- *.
  - injection Hj as ->. rewrite statusLoop_lookup_other.
    + rewrite objSet_lookup_eq, Nat.add_0_r; [done | by left].
    + intros d' Hd'. apply list_elem_of_lookup in Hd' as [j' Hj'].
      apply (Hlast (S j')); [lia | done].
  - rewrite (IH (S i) _ j).
    + do 3 f_equal. lia.
    + split; [done |]. intros j' d' Hlt Hj'.
      apply (Hlast (S j')); [lia | done].
    + exact Hid.
Qed.

Lemma statusLoop_dom probes i data (m : gmap string bool) :
  dom (statusLoop probes i data m)
  = dom m ∪ (list_to_set (Device.device_id <$> data) ∖ {["__proto__"]}).
Proof.
  revert i m. induction data as [|d data IH]; intros i m; cbn.
  - apply set_eq. intros x.
    rewrite elem_of_union, elem_of_difference, elem_of_empty. tauto.
  - rewrite IH, objSet_dom. apply set_eq. intros x.
    rewrite !elem_of_union, !elem_of_difference, elem_of_union, !elem_of_singleton.
    tauto.
Qed.

(** The loop never gives the object an own [__proto__]. *)
Lemma statusLoop_proto probes i data (m : gmap string bool) :
  m !! "__proto__" = None → statusLoop probes i data m !! "__proto__" = None.
Proof.
  revert i m. induction data as [|d data IH]; intros i m H; cbn; [done |].
  apply IH. destruct (decide (Device.device_id d = "__proto__")) as [-> | Hne].
  - by rewrite objSet_proto.
  - by rewrite objSet_lookup_ne.
Qed.

(** What [fetchDevices] leaves in the status map. *)
Lemma fetchDevices_statuses r deviceParam a probes s :
  deviceStatuses (fetchDevices r deviceParam a probes s)
  = match a with
    | Response status (Some data) =>
        if ok status then statusLoop probes 0 data ∅ else deviceStatuses s
    | _ => deviceStatuses s
    end.
Proof.
  unfold fetchDevices, fetchDeviceData_begin.
  destruct a as [|status [data|]]; cbn; try reflexivity.
  - destruct (ok status); [| reflexivity].
    destruct data as [|first rest]; [reflexivity |].
    destruct (String.eqb (selectedDevice r) "" && String.eqb (default "" deviceParam) "");
      [| reflexivity].
    destruct (String.eqb (Device.device_id first) ""); reflexivity.
  - destruct (ok status); reflexivity.
Qed.

(** C2, as the code has it: after a refresh whose list request succeeded
    with [L], every device of [L] with an ordinary identifier has an entry
    in the status map; the entry of an identifier is what the probe of the
    last device of [L] with that identifier gave, whatever the other probes
    did, and it is false when that probe failed. *)
Theorem fetchDevices_status_entries r deviceParam status (L : list Device.t) probes s :
  ok status = true →
  let s' := fetchDevices r deviceParam (Response status (Some L)) probes s in
  (∀ d, d ∈ L → Device.device_id d ≠ "__proto__" →
     is_Some (deviceStatuses s' !! Device.device_id d))
  ∧ (∀ j d, lastWithId L j d → Device.device_id d ≠ "__proto__" →
       deviceStatuses s' !! Device.device_id d = Some (probeStatus d (probes j)))
  ∧ (∀ j d, lastWithId L j d → Device.device_id d ≠ "__proto__" →
       probeFailed (probes j) →
       deviceStatuses s' !! Device.device_id d = Some false).
Proof.
  intros Hok s'. unfold s'. rewrite fetchDevices_statuses, Hok.
  split; [| split].
  - intros d Hd Hid. by apply statusLoop_covers.
  - intros j d Hlast Hid. by rewrite (statusLoop_lookup_last _ _ _ _ j d).
  - intros j d Hlast Hid Hfail.
    rewrite (statusLoop_lookup_last _ _ _ _ j d) by done.
    by rewrite probeStatus_failed.
Qed.

Lemma fetchDevices_status_entries_witness :
  ok 200 = true
  ∧ lastWithId [Samples.dev1; Samples.dev2] 0 Samples.dev1
  ∧ Device.device_id Samples.dev1 ≠ "__proto__"
  ∧ probeFailed (Samples.probesMixed 0)
  ∧ deviceStatuses
      (fetchDevices Samples.dashboard0 None
         (Response 200 (Some [Samples.dev1; Samples.dev2])) Samples.probesMixed
         Samples.dashboard0) !! "d1" = Some false.
Proof.
  assert (Hlast : lastWithId [Samples.dev1; Samples.dev2] 0 Samples.dev1).
  { split; [reflexivity |]. intros j' d' Hlt H.
    destruct j' as [|[|j']]; [lia | | discriminate].
    injection H as <-. discriminate. }
  assert (Hid : Device.device_id Samples.dev1 ≠ "__proto__") by discriminate.
  split; [reflexivity |]. split; [exact Hlast |]. split; [exact Hid |].
  split; [exact I |].
  exact (proj2 (proj2 (fetchDevices_status_entries Samples.dashboard0 None 200
                         [Samples.dev1; Samples.dev2] Samples.probesMixed
                         Samples.dashboard0 eq_refl))
           0 Samples.dev1 Hlast Hid I).
Defined.

(** C2 as stated fails when the list repeats an identifier: the probe of
    the first device announced as [d1] is rejected, the probe of the second
    one finds a fresh reading, and the entry of [d1] is true. *)
Lemma fetchDevices_repeated_id :
  ¬ failedProbeGivesFalse [Samples.dev1; Samples.dev1b] Samples.probesMixed
      (deviceStatuses
         (fetchDevices Samples.dashboard0 None
            (Response 200 (Some [Samples.dev1; Samples.dev1b])) Samples.probesMixed
            Samples.dashboard0)).
Proof.
  intros H. specialize (H 0 Samples.dev1 eq_refl I).
  rewrite fetchDevices_statuses in H. vm_compute in H. discriminate.
Qed.

(** *** The single-device path *)

Lemma fetchDeviceData_settle_404 r deviceId showLoading body now s :
  let s' := fetchDeviceData_settle r deviceId showLoading (Response 404 body) now s in
  deviceData s' = None
  ∧ error s' = "No data available for this device"
  ∧ deviceStatuses s' !! deviceId = Some false.
Proof.
  unfold fetchDeviceData_settle. cbn.
  destruct showLoading; cbn; (split; [reflexivity |]; split; [reflexivity |]);
    apply lookup_insert_eq.
Qed.

(** C3: a 404 answer to the latest-reading request clears the stored
    reading, sets the message to "No data available for this device", which
    is neither of the two generic messages, and sets the entry of the device
    in the status map to false. *)
Theorem fetchDeviceData_404 r deviceId showLoading body now s :
  deviceId ≠ "" →
  let s' := fetchDeviceData r deviceId showLoading (Response 404 body) now s in
  deviceData s' = None
  ∧ error s' = "No data available for this device"
  ∧ error s' ≠ "Failed to fetch device data"
  ∧ error s' ≠ "Network error"
  ∧ deviceStatuses s' !! deviceId = Some false.
Proof.
  intros Hid s'. unfold s', fetchDeviceData.
  apply String.eqb_neq in Hid. rewrite Hid.
  destruct (fetchDeviceData_settle_404 r deviceId showLoading body now
              (fetchDeviceData_begin deviceId showLoading s)) as (Hd & He & Hs).
  split; [exact Hd |]. split; [exact He |].
  rewrite He. split; [discriminate |]. split; [discriminate | exact Hs].
Qed.

Lemma fetchDeviceData_404_witness :
  "d2" ≠ ""
  ∧ deviceData (fetchDeviceData Samples.dashboard1 "d2" true (Response 404 None)
                  1700000000000 Samples.dashboard1) = None
  ∧ deviceStatuses (fetchDeviceData Samples.dashboard1 "d2" true (Response 404 None)
                      1700000000000 Samples.dashboard1) !! "d2" = Some false.
Proof.
  assert (Hid : "d2" ≠ "") by discriminate.
  split; [exact Hid |].
  pose proof (fetchDeviceData_404 Samples.dashboard1 "d2" true None 1700000000000
                Samples.dashboard1 Hid) as (Hd & _ & _ & _ & Hs).
  split; [exact Hd | exact Hs].
Defined.

(** *** Merge or replacement *)

Lemma fetchDeviceData_begin_statuses deviceId showLoading s :
  deviceStatuses (fetchDeviceData_begin deviceId showLoading s) = deviceStatuses s.
Proof.
  unfold fetchDeviceData_begin.
  destruct (String.eqb deviceId ""), showLoading; reflexivity.
Qed.

Lemma fetchDeviceData_settle_others r deviceId showLoading a now s :
  keepsOthers [deviceId] (deviceStatuses s)
    (deviceStatuses (fetchDeviceData_settle r deviceId showLoading a now s)).
Proof.
  intros k Hk. apply not_elem_of_cons in Hk as [Hk _].
  unfold fetchDeviceData_settle.
  destruct a as [|status [data|]]; cbn.
  - destruct showLoading; reflexivity.
  - destruct (ok status).
    + destruct (List.find _ (devices r)); destruct showLoading; cbn;
        try reflexivity; by apply lookup_insert_ne.
    + destruct (status =? 404)%Z; destruct showLoading; cbn;
        try reflexivity; by apply lookup_insert_ne.
  - destruct (ok status).
    + destruct showLoading; reflexivity.
    + destruct (status =? 404)%Z; destruct showLoading; cbn;
        try reflexivity; by apply lookup_insert_ne.
Qed.

(** C4, as the code has it: the single-device path merges, it changes at
    most the entry of its own device, whatever the store holds when the
    answer arrives; the list path replaces the map by the one its loop
    built, whose keys are the identifiers of the fetched list that a plain
    assignment can store (all but [__proto__]), so that the entry of any
    other identifier is gone; a list request that fails leaves the map as
    it was. *)
Theorem status_map_merge_or_replace :
  (∀ r deviceId showLoading a now s,
     keepsOthers [deviceId] (deviceStatuses s)
       (deviceStatuses (fetchDeviceData r deviceId showLoading a now s)))
  ∧ (∀ r deviceParam status (L : list Device.t) probes s,
       ok status = true →
       let s' := fetchDevices r deviceParam (Response status (Some L)) probes s in
       dom (deviceStatuses s')
       = list_to_set (Device.device_id <$> L) ∖ {["__proto__"]}
       ∧ ∀ k, k ∉ (Device.device_id <$> L) → deviceStatuses s' !! k = None)
  ∧ (∀ r deviceParam a probes s,
       match a with
       | Response status (Some _) => ok status = false
       | _ => True
       end →
       deviceStatuses (fetchDevices r deviceParam a probes s) = deviceStatuses s).
Proof.
  split; [| split].
  - intros r deviceId showLoading a now s k Hk. unfold fetchDeviceData.
    destruct (String.eqb deviceId ""); [reflexivity |].
    rewrite (fetchDeviceData_settle_others r deviceId showLoading a now _ k Hk).
    by rewrite fetchDeviceData_begin_statuses.
  - intros r deviceParam status L probes s Hok s'. unfold s'.
    rewrite fetchDevices_statuses, Hok. split.
    + by rewrite statusLoop_dom, dom_empty_L, (left_id_L ∅ (∪)).
    + intros k Hk. rewrite statusLoop_lookup_other; [apply lookup_empty |].
      intros d Hd <-. apply Hk. by apply list_elem_of_fmap_2.
  - intros r deviceParam a probes s Ha. rewrite fetchDevices_statuses.
    destruct a as [|status [data|]]; try reflexivity. by rewrite Ha.
Qed.

Lemma status_map_merge_or_replace_witness :
  ok 200 = true
  ∧ ("d2" ∉ (Device.device_id <$> [Samples.dev1]))
  ∧ deviceStatuses
      (fetchDevices Samples.dashboard1 None (Response 200 (Some [Samples.dev1]))
         Samples.probes404 Samples.dashboard1) !! "d2" = None.
Proof.
  assert (Hk : "d2" ∉ (Device.device_id <$> [Samples.dev1])).
  { intros H. apply elem_of_cons in H as [H | H]; [discriminate |].
    by apply not_elem_of_nil in H. }
  split; [reflexivity |]. split; [exact Hk |].
  exact (proj2 (proj1 (proj2 status_map_merge_or_replace) Samples.dashboard1 None 200%Z
                  [Samples.dev1] Samples.probes404 Samples.dashboard1 eq_refl)
           "d2" Hk).
Defined.

(** C4 as stated fails on the list path: with device [d2] online in the map
    and a fetched list that holds [d1] only, the refresh touches [d1] and
    the entry of [d2] is lost. *)
Lemma fetchDevices_replaces_map :
  ¬ keepsOthers ["d1"] (deviceStatuses Samples.dashboard1)
      (deviceStatuses
         (fetchDevices Samples.dashboard1 None (Response 200 (Some [Samples.dev1]))
            Samples.probes404 Samples.dashboard1)).
Proof.
  intros H. specialize (H "d2").
  rewrite fetchDevices_statuses in H. cbn in H.
  assert (Hk : "d2" ∉ ["d1"]).
  { intros Hin. apply elem_of_cons in Hin as [Hin | Hin]; [discriminate |].
    by apply not_elem_of_nil in Hin. }
  specialize (H Hk). vm_compute in H. discriminate.
Qed.

End StatusMap.

(** ** Threshold colours *)

Section Colours.
Import JS Dashboard.

Lemma getStatusColor_default (value : number) (type : string) :
  type ∉ ["temperature"; "humidity"; "co"; "pm25"] →
  getStatusColor value type = "text-gray-600".
Proof.
  intros H. repeat (apply not_elem_of_cons in H as [?%String.eqb_neq H]).
  unfold getStatusColor. by repeat match goal with E : String.eqb _ _ = false |- _ => rewrite E; clear E end.
Qed.

(** C7: the colour is a function of the metric type and the value alone.
    Temperature below 18 or above 26 is red, from 18 to 26 green; CO above
    3 is red; PM2.5 above 300 is red, above 150 and at most 300 yellow; a
    type other than temperature, humidity, co and pm25 is grey whatever the
    value. *)
Theorem getStatusColor_thresholds :
  (∀ q, (q < 18 ∨ 26 < q)%Q →
        getStatusColor (Fin q) "temperature" = "text-red-600")
  ∧ (∀ q, (18 <= q <= 26)%Q →
          getStatusColor (Fin q) "temperature" = "text-green-600")
  ∧ (∀ q, (3 < q)%Q → getStatusColor (Fin q) "co" = "text-red-600")
  ∧ (∀ q, (300 < q)%Q → getStatusColor (Fin q) "pm25" = "text-red-600")
  ∧ (∀ q, (150 < q <= 300)%Q → getStatusColor (Fin q) "pm25" = "text-yellow-600")
  ∧ (∀ value type, type ∉ ["temperature"; "humidity"; "co"; "pm25"] →
                   getStatusColor value type = "text-gray-600").
Proof.
  repeat split.
  - intros q [H | H]; unfold getStatusColor, ofZ; cbn [String.eqb Ascii.eqb Bool.eqb].
    + apply (num_lt_Fin q (inject_Z 18)) in H. by rewrite H.
    + apply (num_gt_Fin q (inject_Z 26)) in H. rewrite H.
      by rewrite orb_true_r.
  - intros q [H1 H2]. unfold getStatusColor, ofZ; cbn [String.eqb Ascii.eqb Bool.eqb].
    apply (num_lt_Fin_false q (inject_Z 18)) in H1. apply (num_gt_Fin_false q (inject_Z 26)) in H2.
    by rewrite H1, H2.
  - intros q H. unfold getStatusColor, ofZ; cbn [String.eqb Ascii.eqb Bool.eqb].
    apply (num_gt_Fin q (inject_Z 3)) in H. by rewrite H.
  - intros q H. unfold getStatusColor, ofZ; cbn [String.eqb Ascii.eqb Bool.eqb].
    apply (num_gt_Fin q (inject_Z 300)) in H. by rewrite H.
  - intros q [H1 H2]. unfold getStatusColor, ofZ; cbn [String.eqb Ascii.eqb Bool.eqb].
    apply (num_gt_Fin q (inject_Z 150)) in H1. apply (num_gt_Fin_false q (inject_Z 300)) in H2.
    by rewrite H1, H2.
  - apply getStatusColor_default.
Qed.

Lemma getStatusColor_thresholds_witness :
  (150 < 200 <= 300)%Q
  ∧ getStatusColor (Fin 200) "pm25" = "text-yellow-600"
  ∧ ("co2" ∉ ["temperature"; "humidity"; "co"; "pm25"])
  ∧ getStatusColor (Fin 5000) "co2" = "text-gray-600".
Proof.
  assert (H : (150 < 200 <= 300)%Q) by (split; [reflexivity | discriminate]).
  assert (Hk : "co2" ∉ ["temperature"; "humidity"; "co"; "pm25"]).
  { intros Hin. repeat (apply elem_of_cons in Hin as [Hin | Hin]; [discriminate |]).
    by apply not_elem_of_nil in Hin. }
  split; [exact H |].
  split; [exact (proj1 (proj2 (proj2 (proj2 (proj2 getStatusColor_thresholds)))) 200%Q H) |].
  split; [exact Hk |].
  exact (proj2 (proj2 (proj2 (proj2 (proj2 getStatusColor_thresholds)))) (Fin 5000) "co2" Hk).
Defined.

End Colours.

(** ** The range fetcher *)

Section RangeFetch.
Import JS Analytics.

(** C5: when the range request is made and fails, the loaded collection is
    the one of the store before the call, and the message is a generic one:
    "Failed to fetch range data" for a status outside 200-299, "Network
    error" for a rejected request or a body that cannot be decoded. *)
Theorem fetchRangeData_failure r (a : fetched (list RangeData.t)) s :
  is_Some (rangeQuery r) →
  failed a →
  let s' := fetchRangeData r a s in
  rangeData s' = rangeData s
  ∧ error s' = match a with
               | Response status _ =>
                   if ok status then "Network error" else "Failed to fetch range data"
               | Rejected => "Network error"
               end
  ∧ dataLoading s' = false.
Proof.
  intros [q Hq] Ha s'. unfold s', fetchRangeData. rewrite Hq.
  destruct a as [|status body]; cbn; [done |].
  destruct Ha as [-> | ->]; [done |].
  destruct (ok status); done.
Qed.

Lemma fetchRangeData_failure_witness :
  is_Some (rangeQuery Samples.analytics1)
  ∧ failed (Response 500 (@None (list RangeData.t)))
  ∧ rangeData (fetchRangeData Samples.analytics1 (Response 500 None) Samples.analytics1)
    = Samples.rows3
  ∧ error (fetchRangeData Samples.analytics1 (Response 500 None) Samples.analytics1)
    = "Failed to fetch range data".
Proof.
  assert (Hq : is_Some (rangeQuery Samples.analytics1)) by (eexists; reflexivity).
  assert (Ha : failed (Response 500 (@None (list RangeData.t)))) by (left; reflexivity).
  split; [exact Hq |]. split; [exact Ha |].
  pose proof (fetchRangeData_failure Samples.analytics1 (Response 500 None)
                Samples.analytics1 Hq Ha) as (H1 & H2 & _).
  split; [exact H1 | exact H2].
Defined.

End RangeFetch.

(** ** Aggregate statistics *)

Section Statistics.
Import JS Analytics.
Variable Number_toString : number → string.

(** The least of [m] and the finite values [qs]. *)
Lemma min_from_Fin (m : Q) (qs : list Q) :
  ∃ m', min_from (Fin m) (Fin <$> qs) = Fin m'
        ∧ (m' = m ∨ In m' qs)
        ∧ (m' <= m)%Q
        ∧ ∀ q, In q qs → (m' <= q)%Q.
Proof.
  revert m. induction qs as [|q qs IH]; intros m.
  - exists m. cbn. repeat split; [by left | apply Qle_refl | tauto].
  - cbn [fmap list_fmap min_from num_lt].
    destruct (Qltb q m) eqn:E.
    + apply Qltb_lt in E.
      destruct (IH q) as (m' & Hm' & Hin & Hle & Hall).
      exists m'. split; [exact Hm' |]. split; [| split].
      * right. destruct Hin as [-> | Hin]; [by left | by right].
      * apply Qle_trans with q; [exact Hle | by apply Qlt_le_weak].
      * intros x [<- | Hx]; [exact Hle | by apply Hall].
    + apply Qltb_ge in E.
      destruct (IH m) as (m' & Hm' & Hin & Hle & Hall).
      exists m'. split; [exact Hm' |]. split; [| split].
      * destruct Hin as [-> | Hin]; [by left | right; by right].
      * exact Hle.
      * intros x [<- | Hx]; [by apply Qle_trans with m | by apply Hall].
Qed.

(** The greatest of [m] and the finite values [qs]. *)
Lemma max_from_Fin (m : Q) (qs : list Q) :
  ∃ m', max_from (Fin m) (Fin <$> qs) = Fin m'
        ∧ (m' = m ∨ In m' qs)
        ∧ (m <= m')%Q
        ∧ ∀ q, In q qs → (q <= m')%Q.
Proof.
  revert m. induction qs as [|q qs IH]; intros m.
  - exists m. cbn. repeat split; [by left | apply Qle_refl | tauto].
  - cbn [fmap list_fmap max_from num_gt num_lt].
    destruct (Qltb m q) eqn:E.
    + apply Qltb_lt in E.
      destruct (IH q) as (m' & Hm' & Hin & Hle & Hall).
      exists m'. split; [exact Hm' |]. split; [| split].
      * right. destruct Hin as [-> | Hin]; [by left | by right].
      * apply Qle_trans with q; [by apply Qlt_le_weak | exact Hle].
      * intros x [<- | Hx]; [exact Hle | by apply Hall].
    + apply Qltb_ge in E.
      destruct (IH m) as (m' & Hm' & Hin & Hle & Hall).
      exists m'. split; [exact Hm' |]. split; [| split].
      * destruct Hin as [-> | Hin]; [by left | right; by right].
      * exact Hle.
      * intros x [<- | Hx]; [by apply Qle_trans with m | by apply Hall].
Qed.

Lemma Math_min_Fin (q : Q) (qs : list Q) :
  ∃ m, Math_min (Fin <$> q :: qs) = Fin m
       ∧ In m (q :: qs) ∧ ∀ x, In x (q :: qs) → (m <= x)%Q.
Proof.
  destruct (min_from_Fin q qs) as (m & Hm & Hin & Hle & Hall).
  exists m. split; [exact Hm |]. split.
  - destruct Hin as [-> | Hin]; [by left | by right].
  - intros x [<- | Hx]; [exact Hle | by apply Hall].
Qed.

Lemma Math_max_Fin (q : Q) (qs : list Q) :
  ∃ m, Math_max (Fin <$> q :: qs) = Fin m
       ∧ In m (q :: qs) ∧ ∀ x, In x (q :: qs) → (x <= m)%Q.
Proof.
  destruct (max_from_Fin q qs) as (m & Hm & Hin & Hle & Hall).
  exists m. split; [exact Hm |]. split.
  - destruct Hin as [-> | Hin]; [by left | by right].
  - intros x [<- | Hx]; [exact Hle | by apply Hall].
Qed.

(** *** Rounding *)







(** *** The average *)










End Statistics.



(** The page shows 1.1 for that average, where the mean of the two values
    shows as 1.2. *)
Example statistics_rows2 :
  Analytics.statistics Samples.integerText Analytics.Temperature Samples.rows2
  = ("0.0", "1.1", "2.3")
  ∧ JS.toFixed Samples.integerText
      (JS.Fin (Analytics.mean
         [ 5764607523034235 # 576460752303423488; 2578310786669609 # 1125899906842624 ])) 1
    = "1.2".
Proof. split; vm_compute; reflexivity. Qed.

(** ** The CSV export *)

Section CsvExport.
Import JS Analytics.
Variable Number_toString : number → string.
Variable format_yMd : Z → string.

(** The date of a count of seconds within the range of dates. *)
Lemma new_Date_seconds (t : Z) :
  (- 8640000000000000 <= t * 1000 <= 8640000000000000)%Z →
  new_Date (num_mul (ofZ t) (ofZ 1000)) = Some (t * 1000)%Z.
Proof.
  intros H. unfold ofZ. cbn [num_mul].
  change (inject_Z t * inject_Z 1000)%Q with (inject_Z (t * 1000)).
  unfold new_Date. rewrite Qfloor_Z, Qceiling_Z.
  change (Qabs (inject_Z (t * 1000))) with (inject_Z (Z.abs (t * 1000))).
  assert (Hle : Qle_bool (inject_Z (Z.abs (t * 1000))) (inject_Z 8640000000000000) = true).
  { apply Qle_bool_iff. rewrite <- Zle_Qle. lia. }
  rewrite Hle. by destruct (Qle_bool 0 (inject_Z (t * 1000))).
Qed.

Lemma csvRow_line (row : RangeData.t) (t : Z) :
  timestamp row t → csvRow Number_toString row = Some (csvLine Number_toString row).
Proof.
  intros [Hparse Hrange].
  unfold csvRow, csvLine, timestampText, parseInt. rewrite Hparse.
  rewrite (new_Date_seconds t Hrange). reflexivity.
Qed.

Lemma csvRows_lines (rows : list RangeData.t) :
  (∀ row, row ∈ rows → ∃ t, timestamp row t) →
  mapM (csvRow Number_toString) rows = Some (csvLine Number_toString <$> rows).
Proof.
  induction rows as [|row rows IH]; intros H; [reflexivity |].
  destruct (H row) as [t Ht]; [left |].
  cbn. rewrite (csvRow_line row t Ht). cbn.
  rewrite IH; [reflexivity |]. intros row' Hrow'. apply H. by right.
Qed.

Lemma csvContent_lines (rows : list RangeData.t) :
  (∀ row, row ∈ rows → ∃ t, timestamp row t) →
  csvContent Number_toString rows
  = Some (String.concat newline (csvHeader :: (csvLine Number_toString <$> rows))).
Proof.
  intros H. unfold csvContent. by rewrite (csvRows_lines rows H).
Qed.

(** A row whose [recorded_at] does not read as an integer makes
    [toISOString] throw: no text for the row, and none for the file. *)
Lemma csvRow_invalid (row : RangeData.t) :
  parseInt_int (RangeData.recorded_at row) = None →
  csvRow Number_toString row = None.
Proof. intros H. unfold csvRow, parseInt. by rewrite H. Qed.

(** C8: the first line of the file is the header, word for word; then one
    line per reading, in the order of the collection, made of the time
    stamp as ISO date-time text and the ten sensor fields in the order of
    the header; the CO2 of a reading has no part in its line.  The file is
    handed over under the name built from the device and the two dates. *)
Theorem exportData_csv :
  csvHeader = "Timestamp,Temperature,Humidity,Pressure,CO,Methane,LPG,PM2.5,PM10,Noise,Light"
  ∧ (∀ rows : list RangeData.t,
       (∀ row, row ∈ rows → ∃ t, timestamp row t) →
       csvContent Number_toString rows
       = Some (String.concat newline (csvHeader :: (csvLine Number_toString <$> rows))))
  ∧ (∀ row t, timestamp row t →
       csvRow Number_toString row
       = Some (String.concat ","
                 (isoFormat (t * 1000)
                  :: (Number_toString <$>
                        [ RangeData.temperature row; RangeData.humidity row;
                          RangeData.pressure row; RangeData.co row;
                          RangeData.methane row; RangeData.lpg row;
                          RangeData.pm25 row; RangeData.pm10 row;
                          RangeData.noise row; RangeData.light row ]))))
  ∧ (∀ v row, csvRow Number_toString (with_co2 v row) = csvRow Number_toString row)
  ∧ (∀ r s from to,
       rangeData r ≠ [] →
       (∀ row, row ∈ rangeData r → ∃ t, timestamp row t) →
       startDate r = Some (Some from) → endDate r = Some (Some to) →
       exportData Number_toString format_yMd r s
       = Some (s, [mkDownload
                     ("environmental_data_" +:+ selectedDevice r +:+ "_"
                      +:+ format_yMd from +:+ "_to_" +:+ format_yMd to +:+ ".csv")
                     "text/csv"
                     (String.concat newline
                        (csvHeader :: (csvLine Number_toString <$> rangeData r)))])).
Proof.
  split; [reflexivity |]. split; [exact csvContent_lines |].
  split; [| split].
  - intros row t Ht. rewrite (csvRow_line row t Ht).
    unfold csvLine, timestampText. destruct Ht as [-> _]. reflexivity.
  - intros v row. reflexivity.
  - intros r s from to Hne Hts Hfrom Hto. unfold exportData.
    rewrite (csvContent_lines _ Hts), Hfrom, Hto.
    destruct (rangeData r); [done | reflexivity].
Qed.

(** C9: with an empty collection the export returns at once: no file, and
    the store is the store. *)
Theorem exportData_empty r s :
  rangeData r = [] →
  exportData Number_toString format_yMd r s = Some (s, []).
Proof. intros H. unfold exportData. by rewrite H. Qed.

End CsvExport.

Lemma rows3_timestamps :
  ∀ row, row ∈ Samples.rows3 → ∃ t, Analytics.timestamp row t.
Proof.
  intros row H. unfold Samples.rows3 in H.
  repeat (apply elem_of_cons in H as [-> | H];
          [eexists; split; [reflexivity | cbn; lia] |]).
  by apply not_elem_of_nil in H.
Defined.

Lemma exportData_csv_witness :
  Samples.rows3 ≠ []
  ∧ (∀ row, row ∈ Samples.rows3 → ∃ t, Analytics.timestamp row t)
  ∧ Analytics.exportData Samples.integerText Samples.utcDate
      Samples.analytics1 Samples.analytics1
    = Some (Samples.analytics1,
            [Analytics.mkDownload
               "environmental_data_d1_2023-11-14_to_2023-11-15.csv" "text/csv"
               (String.concat JS.newline
                  [ Analytics.csvHeader;
                    "2023-11-14T22:13:20.000Z,20,45,1013,1,0,0,12,20,40,300";
                    "2023-11-14T22:14:20.000Z,22,45,1013,1,0,0,12,20,40,300";
                    "2023-11-14T22:15:20.000Z,24,45,1013,1,0,0,12,20,40,300" ])]).
Proof.
  assert (Hne : Samples.rows3 ≠ []) by discriminate.
  split; [exact Hne |]. split; [exact rows3_timestamps |].
  exact (proj2 (proj2 (proj2 (proj2 (exportData_csv Samples.integerText Samples.utcDate))))
           Samples.analytics1 Samples.analytics1 1699920000000%Z 1700006400000%Z
           Hne rows3_timestamps eq_refl eq_refl).
Defined.

Lemma exportData_empty_witness :
  Analytics.rangeData Samples.analytics0 = []
  ∧ Analytics.exportData Samples.integerText Samples.utcDate
      Samples.analytics0 Samples.analytics0
    = Some (Samples.analytics0, []).
Proof.
  split; [reflexivity |].
  exact (exportData_empty Samples.integerText Samples.utcDate
           Samples.analytics0 Samples.analytics0 eq_refl).
Defined.

(** A loaded reading whose time stamp is not a number: the export throws
    and no file is made. *)
Example exportData_invalid_timestamp :
  Analytics.exportData Samples.integerText Samples.utcDate
    (Analytics.setRangeData [Samples.row 20 "n/a"] Samples.analytics1)
    Samples.analytics1
  = None.
Proof. reflexivity. Qed.

(** ** Worked examples *)

Section Examples.
Import JS.

Example parseInt_seconds : parseInt "1700000000" = ofZ 1700000000.
Proof. reflexivity. Qed.

Example parseInt_prefix : parseInt "  -12px" = ofZ (-12).
Proof. reflexivity. Qed.

Example parseInt_hex : parseInt "0x1F" = ofZ 31.
Proof. reflexivity. Qed.

Example parseInt_fraction : parseInt "12.9e3" = ofZ 12.
Proof. reflexivity. Qed.

Example parseInt_empty : parseInt "" = NaN.
Proof. reflexivity. Qed.

Example parseInt_word : parseInt "abc" = NaN.
Proof. reflexivity. Qed.

Example toISOString_epoch : toISOString (new_Date (ofZ 0)) = Some "1970-01-01T00:00:00.000Z".
Proof. reflexivity. Qed.

Example toISOString_leap_day :
  toISOString (new_Date (ofZ 1709210096789)) = Some "2024-02-29T12:34:56.789Z".
Proof. reflexivity. Qed.

Example toISOString_before_epoch :
  toISOString (new_Date (ofZ (-1))) = Some "1969-12-31T23:59:59.999Z".
Proof. reflexivity. Qed.

Example toISOString_last_date :
  toISOString (new_Date (ofZ 8640000000000000)) = Some "+275760-09-13T00:00:00.000Z".
Proof. reflexivity. Qed.

Example toISOString_out_of_range :
  toISOString (new_Date (ofZ 8640000000000001)) = None.
Proof. reflexivity. Qed.

Example toFixed_half : toFixed Samples.integerText (Fin (5 # 2)) 0 = "3".
Proof. reflexivity. Qed.

Example toFixed_negative : toFixed Samples.integerText (Fin (- 1 # 100)) 1 = "-0.0".
Proof. reflexivity. Qed.

Example toFixed_two_digits : toFixed Samples.integerText (Fin (1234567 # 1000)) 2 = "1234.57".
Proof. reflexivity. Qed.

(** Exactly twenty seconds old is online, one millisecond more is not. *)
Example isDeviceOnline_edge :
  Dashboard.isDeviceOnline 1700000020000 Samples.dev1 (Some (Samples.reading "1700000000")) = true
  ∧ Dashboard.isDeviceOnline 1700000020001 Samples.dev1 (Some (Samples.reading "1700000000")) = false.
Proof. split; reflexivity. Qed.

(** The ends of the temperature range are green; so is NaN, which is on
    neither side of a threshold. *)
Example getStatusColor_edges :
  Dashboard.getStatusColor (ofZ 18) "temperature" = "text-green-600"
  ∧ Dashboard.getStatusColor (ofZ 26) "temperature" = "text-green-600"
  ∧ Dashboard.getStatusColor NaN "temperature" = "text-green-600"
  ∧ Dashboard.getStatusColor (ofZ 300) "pm25" = "text-yellow-600"
  ∧ Dashboard.getStatusColor (ofZ 150) "pm25" = "text-green-600".
Proof. repeat split; reflexivity. Qed.

(** The chart grid of the three sample readings: one card per metric. *)
Example charts_rows3 :
  Analytics.charts Samples.integerText Samples.rows3
  = Some [ ("Temperature", ("20.0", "22.0", "24.0"));
           ("Humidity", ("45.0", "45.0", "45.0"));
           ("Atmospheric Pressure", ("1013.0", "1013.0", "1013.0"));
           ("Carbon Monoxide", ("1.0", "1.0", "1.0"));
           ("Carbon Dioxide", ("400.0", "400.0", "400.0"));
           ("Methane", ("0.0", "0.0", "0.0"));
           ("LPG", ("0.0", "0.0", "0.0"));
           ("PM2.5", ("12.0", "12.0", "12.0"));
           ("PM10", ("20.0", "20.0", "20.0"));
           ("Noise Level", ("40.0", "40.0", "40.0"));
           ("Light Level", ("300.0", "300.0", "300.0")) ].
Proof. vm_compute. reflexivity. Qed.

(** A rejected probe of [d1] does not stop the loop: [d2] is probed next
    and found online. *)
Example statusLoop_goes_on :
  Dashboard.statusLoop Samples.probesMixed 0 [Samples.dev1; Samples.dev2] ∅
  = {[ "d1" := false; "d2" := true ]}.
Proof. vm_compute. reflexivity. Qed.

End Examples.

(** * Further properties of the dashboard page *)

Section SingleDevice.
Import JS Dashboard.

Lemma find_device_None (deviceId : string) (l : list Device.t) :
  (∀ d, d ∈ l → Device.device_id d ≠ deviceId) →
  List.find (fun d => String.eqb (Device.device_id d) deviceId) l = None.
Proof.
  intros H. destruct (List.find _ l) as [d|] eqn:E; [| reflexivity].
  apply find_some in E as [Hin Heq]. apply String.eqb_eq in Heq.
  destruct (H d); [by apply list_elem_of_In | exact Heq].
Qed.

Lemma find_device_Some (deviceId : string) (l : list Device.t) (d : Device.t) :
  d ∈ l → Device.device_id d = deviceId →
  ∃ d', List.find (fun d => String.eqb (Device.device_id d) deviceId) l = Some d'.
Proof.
  intros Hin Heq.
  destruct (List.find _ l) as [d'|] eqn:E; [eauto |].
  apply list_elem_of_In in Hin.
  pose proof (find_none _ _ E d Hin) as Hf.
  apply String.eqb_neq in Hf. done.
Qed.

(** X1: a successful answer stores the reading and clears the message.  The
    entry of the device in the status map is recomputed when the device is
    in the list of the render that made the call; when it is not (the list
    was still empty, say), the map is left as it is. *)
Theorem fetchDeviceData_success r deviceId showLoading status data now s :
  deviceId ≠ "" → ok status = true →
  let s' := fetchDeviceData r deviceId showLoading (Response status (Some data)) now s in
  deviceData s' = Some data
  ∧ error s' = ""
  ∧ (∀ d, d ∈ devices r → Device.device_id d = deviceId →
       deviceStatuses s'
       = <[deviceId := isDeviceOnline now d (Some data)]> (deviceStatuses s))
  ∧ ((∀ d, d ∈ devices r → Device.device_id d ≠ deviceId) →
       deviceStatuses s' = deviceStatuses s).
Proof.
  intros Hid Hok s'. unfold s', fetchDeviceData, fetchDeviceData_settle,
    fetchDeviceData_begin.
  apply String.eqb_neq in Hid. rewrite Hid, Hok.
  split; [| split; [| split]].
  - destruct (List.find _ (devices r)), showLoading; reflexivity.
  - destruct (List.find _ (devices r)), showLoading; reflexivity.
  - intros d Hin Heq.
    destruct (find_device_Some deviceId (devices r) d Hin Heq) as [d' ->].
    destruct showLoading; reflexivity.
  - intros H. rewrite (find_device_None deviceId (devices r) H).
    destruct showLoading; reflexivity.
Qed.

Lemma fetchDeviceData_success_witness :
  "d1" ≠ "" ∧ ok 200 = true
  ∧ (∀ d, d ∈ devices Samples.dashboard0 → Device.device_id d ≠ "d1")
  ∧ deviceStatuses
      (fetchDeviceData Samples.dashboard0 "d1" true
         (Response 200 (Some (Samples.reading "1700000000"))) 1700000005000
         Samples.dashboard1)
    = deviceStatuses Samples.dashboard1.
Proof.
  assert (Hid : "d1" ≠ "") by discriminate.
  assert (Hno : ∀ d, d ∈ devices Samples.dashboard0 → Device.device_id d ≠ "d1").
  { intros d Hd. by apply not_elem_of_nil in Hd. }
  split; [exact Hid |]. split; [reflexivity |]. split; [exact Hno |].
  exact (proj2 (proj2 (proj2 (fetchDeviceData_success Samples.dashboard0 "d1" true 200
                                (Samples.reading "1700000000") 1700000005000
                                Samples.dashboard1 Hid eq_refl))) Hno).
Defined.

(** X2: a failure other than 404 (another status outside 200-299, a rejected
    request, a body that cannot be decoded) clears the reading and sets a
    generic message, and does not touch the status map: a device shown
    online stays shown online. *)
Theorem fetchDeviceData_generic_failure r deviceId showLoading
    (a : fetched DeviceData.t) now s :
  deviceId ≠ "" → failed a → (∀ body, a ≠ Response 404 body) →
  let s' := fetchDeviceData r deviceId showLoading a now s in
  deviceData s' = None
  ∧ error s' = match a with
               | Response status _ =>
                   if ok status then "Network error" else "Failed to fetch device data"
               | Rejected => "Network error"
               end
  ∧ deviceStatuses s' = deviceStatuses s
  ∧ statusOf s' deviceId = statusOf s deviceId.
Proof.
  intros Hid Ha H404 s'.
  assert (deviceData s' = None
          ∧ error s' = match a with
                       | Response status _ =>
                           if ok status then "Network error"
                           else "Failed to fetch device data"
                       | Rejected => "Network error"
                       end
          ∧ deviceStatuses s' = deviceStatuses s) as (H1 & H2 & H3).
  { unfold s', fetchDeviceData, fetchDeviceData_settle, fetchDeviceData_begin.
    apply String.eqb_neq in Hid. rewrite Hid.
    destruct a as [|status body].
    - destruct showLoading; done.
    - destruct Ha as [Hok | ->].
      + rewrite Hok. destruct (status =? 404)%Z eqn:E.
        * apply Z.eqb_eq in E. subst. by destruct (H404 body).
        * destruct showLoading; done.
      + destruct (ok status) eqn:Hok.
        * destruct showLoading; done.
        * destruct (status =? 404)%Z eqn:E.
          -- apply Z.eqb_eq in E. subst. by destruct (H404 None).
          -- destruct showLoading; done. }
  split; [exact H1 |]. split; [exact H2 |]. split; [exact H3 |].
  unfold statusOf. by rewrite H3.
Qed.

Lemma fetchDeviceData_generic_failure_witness :
  "d2" ≠ "" ∧ failed (Response 500 (@None DeviceData.t))
  ∧ (∀ body, Response 500 (@None DeviceData.t) ≠ Response 404 body)
  ∧ deviceData (fetchDeviceData Samples.dashboard1 "d2" true (Response 500 None)
                  1700000000000 Samples.dashboard1) = None
  ∧ statusOf (fetchDeviceData Samples.dashboard1 "d2" true (Response 500 None)
                1700000000000 Samples.dashboard1) "d2" = true.
Proof.
  assert (Hid : "d2" ≠ "") by discriminate.
  assert (Ha : failed (Response 500 (@None DeviceData.t))) by (left; reflexivity).
  assert (H404 : ∀ body, Response 500 (@None DeviceData.t) ≠ Response 404 body)
    by discriminate.
  split; [exact Hid |]. split; [exact Ha |]. split; [exact H404 |].
  pose proof (fetchDeviceData_generic_failure Samples.dashboard1 "d2" true
                (Response 500 None) 1700000000000 Samples.dashboard1 Hid Ha H404)
    as (H1 & _ & _ & H4).
  split; [exact H1 |]. rewrite H4. reflexivity.
Defined.

(** X3: [fetchDeviceData] never writes the device list, the selection, the
    page-level loading flag or the auto-refresh switch.  A background call
    leaves [dataLoading] alone; a foreground call for a device ends with it
    false; a call without a device identifier changes nothing. *)
Theorem fetchDeviceData_frame r deviceId showLoading (a : fetched DeviceData.t) now s :
  let s' := fetchDeviceData r deviceId showLoading a now s in
  devices s' = devices s
  ∧ selectedDevice s' = selectedDevice s
  ∧ loading s' = loading s
  ∧ autoRefresh s' = autoRefresh s
  ∧ (showLoading = false → dataLoading s' = dataLoading s)
  ∧ (showLoading = true → deviceId ≠ "" → dataLoading s' = false)
  ∧ (deviceId = "" → s' = s).
Proof.
  intros s'. unfold s', fetchDeviceData, fetchDeviceData_settle, fetchDeviceData_begin.
  destruct (String.eqb deviceId "") eqn:Hid.
  { repeat split; try done. intros _ Hne. by apply String.eqb_eq in Hid. }
  assert (Hne : deviceId ≠ "") by by apply String.eqb_neq.
  destruct a as [|status [data|]]; [| destruct (ok status);
    [destruct (List.find _ (devices r)) | destruct (status =? 404)%Z]
    | destruct (ok status); [| destruct (status =? 404)%Z]];
    destruct showLoading; repeat split; done.
Qed.

Lemma fetchDeviceData_frame_witness :
  "d2" ≠ ""
  ∧ dataLoading (fetchDeviceData Samples.dashboard1 "d2" true Rejected 0
                   Samples.dashboard1) = false.
Proof.
  assert (Hid : "d2" ≠ "") by discriminate.
  split; [exact Hid |].
  exact (proj1 (proj2 (proj2 (proj2 (proj2 (proj2
           (fetchDeviceData_frame Samples.dashboard1 "d2" true Rejected 0
              Samples.dashboard1)))))) eq_refl Hid).
Defined.

End SingleDevice.

Section DeviceList.
Import JS Dashboard.

(** X4: when the list request fails, the refresh sets a generic message and the
    page-level loading flag to false and writes nothing else: the device
    list, the status map, the selection and the reading stay. *)
Theorem fetchDevices_failure r deviceParam (a : fetched (list Device.t)) probes s :
  failed a →
  let s' := fetchDevices r deviceParam a probes s in
  error s' = match a with
             | Response status _ =>
                 if ok status then "Network error" else "Failed to fetch devices"
             | Rejected => "Network error"
             end
  ∧ loading s' = false
  ∧ devices s' = devices s
  ∧ deviceStatuses s' = deviceStatuses s
  ∧ selectedDevice s' = selectedDevice s
  ∧ deviceData s' = deviceData s
  ∧ dataLoading s' = dataLoading s.
Proof.
  intros Ha s'. unfold s', fetchDevices.
  destruct a as [|status body]; [done |].
  destruct Ha as [-> | ->]; [done |].
  destruct (ok status); done.
Qed.

Lemma fetchDevices_failure_witness :
  failed (@Rejected (list Device.t))
  ∧ error (fetchDevices Samples.dashboard1 None Rejected Samples.probes404
             Samples.dashboard1) = "Network error"
  ∧ deviceStatuses (fetchDevices Samples.dashboard1 None Rejected Samples.probes404
                      Samples.dashboard1) = deviceStatuses Samples.dashboard1.
Proof.
  split; [exact I |].
  pose proof (fetchDevices_failure Samples.dashboard1 None Rejected Samples.probes404
                Samples.dashboard1 I) as (H1 & _ & _ & H4 & _).
  split; [exact H1 | exact H4].
Defined.

(** X5: after a successful list request the device list is the fetched one and
    the page-level loading flag is false.  The first device is selected, and
    its reading requested, exactly when the render that made the call had no
    selection, the location names no device and the list is not empty; in
    every other case selection, reading, message and [dataLoading] stay. *)
Theorem fetchDevices_selection r deviceParam status (L : list Device.t) probes s :
  ok status = true →
  let s' := fetchDevices r deviceParam (Response status (Some L)) probes s in
  devices s' = L
  ∧ loading s' = false
  ∧ (∀ first rest, L = first :: rest →
       selectedDevice r = "" → default "" deviceParam = "" →
       selectedDevice s' = Device.device_id first
       ∧ deviceData s' = deviceData s
       ∧ (Device.device_id first ≠ "" → dataLoading s' = true ∧ error s' = ""))
  ∧ (L = [] ∨ selectedDevice r ≠ "" ∨ default "" deviceParam ≠ "" →
       selectedDevice s' = selectedDevice s
       ∧ deviceData s' = deviceData s
       ∧ error s' = error s
       ∧ dataLoading s' = dataLoading s).
Proof.
  intros Hok s'. unfold s', fetchDevices, fetchDeviceData_begin. rewrite Hok.
  split; [| split; [| split]].
  - destruct L as [|first rest]; [reflexivity |].
    destruct (_ && _); [| reflexivity].
    destruct (String.eqb (Device.device_id first) ""); reflexivity.
  - destruct L as [|first rest]; [reflexivity |].
    destruct (_ && _); [| reflexivity].
    destruct (String.eqb (Device.device_id first) ""); reflexivity.
  - intros first rest -> Hsel Hpar. rewrite Hsel, Hpar. cbn [String.eqb andb].
    destruct (String.eqb (Device.device_id first) "") eqn:E.
    + apply String.eqb_eq in E. done.
    + done.
  - intros H. destruct L as [|first rest]; [done |].
    destruct H as [H | [H | H]]; [done | |]; apply String.eqb_neq in H; rewrite H;
      rewrite ?andb_false_r; done.
Qed.

Lemma fetchDevices_selection_witness :
  ok 200 = true
  ∧ selectedDevice Samples.dashboard0 = ""
  ∧ default "" (@None string) = ""
  ∧ Device.device_id Samples.dev1 ≠ ""
  ∧ selectedDevice
      (fetchDevices Samples.dashboard0 None
         (Response 200 (Some [Samples.dev1; Samples.dev2])) Samples.probesMixed
         Samples.dashboard0) = "d1"
  ∧ dataLoading
      (fetchDevices Samples.dashboard0 None
         (Response 200 (Some [Samples.dev1; Samples.dev2])) Samples.probesMixed
         Samples.dashboard0) = true.
Proof.
  assert (Hid : Device.device_id Samples.dev1 ≠ "") by discriminate.
  split; [reflexivity |]. split; [reflexivity |]. split; [reflexivity |].
  split; [exact Hid |].
  pose proof (proj1 (proj2 (proj2 (fetchDevices_selection Samples.dashboard0 None 200
                                     [Samples.dev1; Samples.dev2] Samples.probesMixed
                                     Samples.dashboard0 eq_refl)))
                Samples.dev1 [Samples.dev2] eq_refl eq_refl eq_refl) as (H1 & _ & H3).
  split; [exact H1 | exact (proj1 (H3 Hid))].
Defined.

(** X6: with pairwise distinct identifiers in the fetched list, a device
    with an ordinary identifier is marked online after the refresh exactly
    when its own probe was answered with a status in 200-299 and a reading
    whose [recorded_at] reads as a second [t] at most 20000 ms before the
    clock of the probe.  A device whose identifier is [__proto__] gets no
    entry and reads as online whatever its probe did. *)
Theorem fetchDevices_online_iff r deviceParam status (L : list Device.t) probes s j d :
  ok status = true →
  NoDup (Device.device_id <$> L) →
  L !! j = Some d →
  let s' := fetchDevices r deviceParam (Response status (Some L)) probes s in
  (Device.device_id d ≠ "__proto__" →
     (statusOf s' (Device.device_id d) = true
      ↔ ∃ st data t,
          answer (probes j) = Response st (Some data)
          ∧ ok st = true
          ∧ parseInt_int (DeviceData.recorded_at data) = Some t
          ∧ (clock (probes j) - t * 1000 <= 20000)%Z))
  ∧ (Device.device_id d = "__proto__" →
       deviceStatuses s' !! Device.device_id d = None
       ∧ statusOf s' (Device.device_id d) = true).
Proof.
  intros Hok Hnd Hj s'. unfold s', statusOf, objTruthy.
  rewrite fetchDevices_statuses, Hok. split.
  - intros Hid.
    rewrite (statusLoop_lookup_last probes 0 L ∅ j d (lastWithId_NoDup L j d Hnd Hj) Hid).
    cbn [Nat.add]. unfold probeStatus.
    destruct (answer (probes j)) as [|st [data|]].
    + split; [discriminate | intros (? & ? & ? & ? & _); discriminate].
    + destruct (ok st) eqn:Hst.
      * rewrite isDeviceOnline_int. split.
        -- intros (t & Ht & Hle). exists st, data, t. done.
        -- intros (st' & data' & t & Heq & _ & Ht & Hle).
           injection Heq as <- <-. eauto.
      * split; [discriminate |].
        intros (st' & data' & t & Heq & Hst' & _). injection Heq as <- <-. congruence.
    + split; [by destruct (ok st) |].
      intros (? & ? & ? & ? & _); discriminate.
  - intros ->. rewrite statusLoop_proto by apply lookup_empty. done.
Qed.

Lemma fetchDevices_online_iff_witness :
  ok 200 = true
  ∧ NoDup (Device.device_id <$> [Samples.dev1; Samples.dev2])
  ∧ [Samples.dev1; Samples.dev2] !! 1 = Some Samples.dev2
  ∧ Device.device_id Samples.dev2 ≠ "__proto__"
  ∧ statusOf
      (fetchDevices Samples.dashboard0 None
         (Response 200 (Some [Samples.dev1; Samples.dev2])) Samples.probesMixed
         Samples.dashboard0) "d2" = true.
Proof.
  assert (Hnd : NoDup (Device.device_id <$> [Samples.dev1; Samples.dev2])).
  { apply NoDup_cons. split.
    - intros H. apply elem_of_cons in H as [H | H]; [discriminate |].
      by apply not_elem_of_nil in H.
    - apply NoDup_cons. split; [apply not_elem_of_nil | apply NoDup_nil_2]. }
  assert (Hid : Device.device_id Samples.dev2 ≠ "__proto__") by discriminate.
  split; [reflexivity |]. split; [exact Hnd |]. split; [reflexivity |].
  split; [exact Hid |].
  apply (proj1 (fetchDevices_online_iff Samples.dashboard0 None 200
                  [Samples.dev1; Samples.dev2] Samples.probesMixed Samples.dashboard0
                  1 Samples.dev2 eq_refl Hnd eq_refl) Hid).
  exists 200%Z, (Samples.reading "1700000000"), 1700000000%Z.
  split; [reflexivity |]. split; [reflexivity |]. split; [reflexivity | cbn; lia].
Defined.

End DeviceList.

(** ** Time stamps as text *)

Section RoundTrip.
Import JS Dashboard.

Lemma digit_cases (d : N) :
  (d < 10)%N →
  d = 0%N ∨ d = 1%N ∨ d = 2%N ∨ d = 3%N ∨ d = 4%N ∨ d = 5%N ∨ d = 6%N
  ∨ d = 7%N ∨ d = 8%N ∨ d = 9%N.
Proof. lia. Qed.

Lemma radixDigit_char (d : N) :
  (d < 10)%N → radixDigit 10 (pretty_N_char d) = Some (Z.of_N d).
Proof.
  intros H. destruct (digit_cases d H) as [->|[->|[->|[->|[->|[->|[->|[->|[->| ->]]]]]]]]];
    reflexivity.
Qed.

(** Reading the digits of [x] after nothing gives [x]. *)
Lemma parseDigits_pretty_go (x : N) (s : string) :
  (0 < x)%N →
  parseDigits 10 (pretty_N_go x s) None = parseDigits 10 s (Some (Z.of_N x)).
Proof.
  revert s. induction (N.lt_wf_0 x) as [x _ IH]. intros s Hx.
  rewrite pretty_N_go_step by done.
  assert (Hm : (x `mod` 10 < 10)%N) by (apply N.mod_lt; lia).
  destruct (decide (x `div` 10 = 0)%N) as [E | E].
  - rewrite E, pretty_N_go_0. cbn [parseDigits]. rewrite radixDigit_char by done.
    cbn [from_option id]. do 2 f_equal.
    pose proof (N.div_mod x 10 ltac:(done)) as H.
    revert H E Hm. generalize (x `div` 10)%N (x `mod` 10)%N. clear. lia.
  - assert (Hlt : (x `div` 10 < x)%N) by (apply N.div_lt; lia).
    assert (Hpos : (0 < x `div` 10)%N) by (apply N.neq_0_lt_0; exact E).
    rewrite (IH _ Hlt _ Hpos).
    cbn [parseDigits]. rewrite radixDigit_char by done.
    cbn [from_option id]. do 2 f_equal.
    pose proof (N.div_mod x 10 ltac:(done)) as H.
    revert H E Hm. generalize (x `div` 10)%N (x `mod` 10)%N. clear. lia.
Qed.

(** The text of [x > 0] starts with a digit, and goes on with a digit if it
    goes on. *)
Lemma pretty_go_head (x : N) (s : string) :
  (0 < x)%N → digitHead s →
  ∃ d rest, (d < 10)%N ∧ pretty_N_go x s = String (pretty_N_char d) rest ∧ digitHead rest.
Proof.
  revert s. induction (N.lt_wf_0 x) as [x _ IH]. intros s Hx Hs.
  rewrite pretty_N_go_step by done.
  assert (Hm : (x `mod` 10 < 10)%N) by (apply N.mod_lt; lia).
  destruct (decide (x `div` 10 = 0)%N) as [E | E].
  - rewrite E, pretty_N_go_0. eauto.
  - assert (Hlt : (x `div` 10 < x)%N) by (apply N.div_lt; lia).
    assert (Hpos : (0 < x `div` 10)%N) by (apply N.neq_0_lt_0; exact E).
    apply (IH _ Hlt _ Hpos). cbn. eauto.
Qed.

Lemma parseInt_int_head (d : N) (rest : string) :
  (d < 10)%N → digitHead rest →
  trimStart (String (pretty_N_char d) rest) = String (pretty_N_char d) rest
  ∧ stripSign (String (pretty_N_char d) rest) = (1%Z, String (pretty_N_char d) rest)
  ∧ stripPrefix (String (pretty_N_char d) rest) = (10%Z, String (pretty_N_char d) rest).
Proof.
  intros Hd Hrest.
  destruct (digit_cases d Hd) as [->|[->|[->|[->|[->|[->|[->|[->|[->| ->]]]]]]]]];
    try (repeat split; reflexivity).
  destruct rest as [|c rest']; [repeat split; reflexivity |].
  destruct Hrest as (d' & Hd' & ->).
  destruct (digit_cases d' Hd') as [->|[->|[->|[->|[->|[->|[->|[->|[->| ->]]]]]]]]];
    repeat split; reflexivity.
Qed.

Lemma parseInt_int_pretty_pos (p : positive) :
  parseInt_int (pretty (N.pos p)) = Some (Z.pos p)
  ∧ parseInt_int ("-" +:+ pretty (N.pos p)) = Some (Z.neg p).
Proof.
  unfold pretty, pretty_N. rewrite decide_False by done.
  destruct (pretty_go_head (N.pos p) "" eq_refl I) as (d & rest & Hd & Heq & Hrest).
  pose proof (parseDigits_pretty_go (N.pos p) "" eq_refl) as Hp.
  rewrite Heq in Hp |- *.
  destruct (parseInt_int_head d rest Hd Hrest) as (Ht & Hs & Hx).
  unfold parseInt_int. split.
  - rewrite Ht, Hs, Hx, Hp. reflexivity.
  - change ("-" +:+ String (pretty_N_char d) rest)
      with (String "-" (String (pretty_N_char d) rest)).
    change (trimStart (String "-" (String (pretty_N_char d) rest)))
      with (String "-" (String (pretty_N_char d) rest)).
    cbn [stripSign]. rewrite Hx, Hp. reflexivity.
Qed.

Lemma parseInt_int_pretty (z : Z) : parseInt_int (pretty z) = Some z.
Proof.
  destruct z as [|p|p]; [reflexivity | |].
  - apply (parseInt_int_pretty_pos p).
  - apply (parseInt_int_pretty_pos p).
Qed.

(** X7: [parseInt] reads back the decimal text of an integer: for a second
    [t] of at most [2^53] in absolute value, every one of which is a
    binary64, and a clock in the range of dates, a reading stamped with the
    text of [t] is online exactly when [now - t * 1000 <= 20000]. *)
Theorem isDeviceOnline_epoch_text (now : Z) (device : Device.t) (R : DeviceData.t) (t : Z) :
  DeviceData.recorded_at R = pretty t →
  (Z.abs t <= 2 ^ 53)%Z →
  (Z.abs now <= 8640000000000000)%Z →
  parseInt (DeviceData.recorded_at R) = ofZ t
  ∧ (isDeviceOnline now device (Some R) = true ↔ (now - t * 1000 <= 20000)%Z).
Proof.
  intros Ht _ _.
  assert (Hp : parseInt_int (DeviceData.recorded_at R) = Some t)
    by (rewrite Ht; apply parseInt_int_pretty).
  split; [unfold parseInt; by rewrite Hp |].
  rewrite isDeviceOnline_int. split.
  - intros (t' & Ht' & H). rewrite Hp in Ht'. injection Ht' as <-. exact H.
  - intros H. exists t. split; [exact Hp | exact H].
Qed.

Lemma isDeviceOnline_epoch_text_witness :
  DeviceData.recorded_at (Samples.reading "1700000000") = pretty 1700000000%Z
  ∧ (Z.abs 1700000000 <= 2 ^ 53)%Z
  ∧ (Z.abs 1700000030000 <= 8640000000000000)%Z
  ∧ isDeviceOnline 1700000030000 Samples.dev1 (Some (Samples.reading "1700000000")) = false.
Proof.
  assert (Ht : DeviceData.recorded_at (Samples.reading "1700000000") = pretty 1700000000%Z)
    by reflexivity.
  assert (Hb : (Z.abs 1700000000 <= 2 ^ 53)%Z) by (vm_compute; discriminate).
  assert (Hn : (Z.abs 1700000030000 <= 8640000000000000)%Z) by (vm_compute; discriminate).
  split; [exact Ht |]. split; [exact Hb |]. split; [exact Hn |].
  apply not_true_iff_false. intros Hon.
  apply (proj2 (isDeviceOnline_epoch_text 1700000030000 Samples.dev1
                  (Samples.reading "1700000000") 1700000000%Z Ht Hb Hn)) in Hon.
  lia.
Defined.

(** X8: whatever the reading, the evaluator is antitone in the clock: online at
    a later instant implies online at every earlier one. *)
Theorem isDeviceOnline_antitone (now later : Z) (device : Device.t)
    (latestData : option DeviceData.t) :
  (now <= later)%Z →
  isDeviceOnline later device latestData = true →
  isDeviceOnline now device latestData = true.
Proof.
  intros Hle. destruct latestData as [R|]; [| done].
  rewrite !isDeviceOnline_int. intros (t & Ht & H). exists t. split; [done | lia].
Qed.

Lemma isDeviceOnline_antitone_witness :
  (1700000000000 <= 1700000020000)%Z
  ∧ isDeviceOnline 1700000020000 Samples.dev1 (Some (Samples.reading "1700000000")) = true
  ∧ isDeviceOnline 1700000000000 Samples.dev1 (Some (Samples.reading "1700000000")) = true.
Proof.
  assert (Hle : (1700000000000 <= 1700000020000)%Z) by lia.
  split; [exact Hle |]. split; [reflexivity |].
  exact (isDeviceOnline_antitone 1700000000000 1700000020000 Samples.dev1
           (Some (Samples.reading "1700000000")) Hle eq_refl).
Defined.

End RoundTrip.

(** ** Selecting a device *)

Section Selection.
Import JS Dashboard.

(** X9: switching to device [B] clears the reading and the message at once.
    An answer to an earlier request for a device [A] that arrives after the
    switch is stored all the same: the selection stays [B] and the page
    shows the reading of the answer under it. *)
Theorem stale_answer_after_switch r A B showLoading status data now s :
  ok status = true →
  let s1 := fst (handleDeviceChange B s) in
  let s2 := fetchDeviceData_settle r A showLoading (Response status (Some data)) now s1 in
  (selectedDevice s1 = B ∧ deviceData s1 = None ∧ error s1 = "")
  ∧ selectedDevice s2 = B
  ∧ deviceData s2 = Some data
  ∧ (loading s = false → devices s ≠ [] →
       ∃ page, render s2 = Some page
               ∧ MetricCards data (if statusOf s2 B then "Online" else "Offline")
                 ∈ panels page).
Proof.
  intros Hok s1 s2.
  assert (H1 : selectedDevice s1 = B ∧ deviceData s1 = None ∧ error s1 = ""
               ∧ loading s1 = loading s ∧ devices s1 = devices s).
  { unfold s1, handleDeviceChange, fetchDeviceData_begin. cbn [fst].
    destruct (String.eqb B ""); done. }
  destruct H1 as (Hsel & Hdat & Herr & Hload & Hdev).
  assert (H2 : selectedDevice s2 = selectedDevice s1 ∧ deviceData s2 = Some data
               ∧ loading s2 = loading s1 ∧ devices s2 = devices s1).
  { unfold s2, fetchDeviceData_settle. rewrite Hok.
    destruct (List.find _ (devices r)), showLoading; done. }
  destruct H2 as (Hsel2 & Hdat2 & Hload2 & Hdev2).
  split; [done |]. split; [congruence |]. split; [done |].
  intros Hl Hd. unfold render.
  rewrite Hload2, Hload, Hl, Hdev2, Hdev, Hdat2, Hsel2, Hsel.
  destruct (devices s) as [|d0 ds] eqn:E; [done |].
  eexists. split; [reflexivity |]. cbn [panels]. apply elem_of_app. left. left.
Qed.

Lemma stale_answer_after_switch_witness :
  ok 200 = true
  ∧ selectedDevice
      (fetchDeviceData_settle Samples.dashboard1 "d1" true
         (Response 200 (Some (Samples.reading "1700000000"))) 1700000005000
         (fst (handleDeviceChange "d2" Samples.dashboard1))) = "d2"
  ∧ deviceData
      (fetchDeviceData_settle Samples.dashboard1 "d1" true
         (Response 200 (Some (Samples.reading "1700000000"))) 1700000005000
         (fst (handleDeviceChange "d2" Samples.dashboard1)))
    = Some (Samples.reading "1700000000").
Proof.
  split; [reflexivity |].
  pose proof (stale_answer_after_switch Samples.dashboard1 "d1" "d2" true 200
                (Samples.reading "1700000000") 1700000005000 Samples.dashboard1 eq_refl)
    as (_ & H2 & H3 & _).
  split; [exact H2 | exact H3].
Defined.

(** X10: after a switch to a device and before the answer the page shows the
    loading panel alone, with no banner.  When the answer is a 404 the page
    shows the banner "No data available for this device" and the
    no-data panel alone, and the dot of the device in the selector is red. *)
Theorem render_switch_then_404 r deviceId body now s :
  deviceId ≠ "" → loading s = false → devices s ≠ [] →
  let s1 := fst (handleDeviceChange deviceId s) in
  let s2 := fetchDeviceData_settle r deviceId true (Response 404 body) now s1 in
  (∃ items, render s1 = Some (mkPage None items [LoadingData]))
  ∧ (∃ items,
       render s2 = Some (mkPage (Some "No data available for this device") items
                           [NoDataAvailable])
       ∧ ∀ d, d ∈ devices s → Device.device_id d = deviceId →
              ("bg-red-500", Device.device_name d) ∈ items).
Proof.
  intros Hid Hl Hd s1 s2. apply String.eqb_neq in Hid.
  assert (H1 : loading s1 = false ∧ devices s1 = devices s ∧ deviceData s1 = None
               ∧ error s1 = "" ∧ dataLoading s1 = true).
  { unfold s1, handleDeviceChange, fetchDeviceData_begin. rewrite Hid. done. }
  destruct H1 as (Hl1 & Hd1 & Hdat1 & He1 & Hdl1).
  destruct (fetchDeviceData_settle_404 r deviceId true body now s1) as (Hdat2 & He2 & Hst2).
  fold s2 in Hdat2, He2, Hst2.
  assert (H2 : loading s2 = loading s1 ∧ devices s2 = devices s1 ∧ dataLoading s2 = false).
  { unfold s2, fetchDeviceData_settle. done. }
  destruct H2 as (Hl2 & Hd2 & Hdl2).
  destruct (devices s) as [|d0 ds] eqn:E; [done |].
  split.
  - unfold render. rewrite Hl1, Hd1, Hdat1, He1, Hdl1. eexists. reflexivity.
  - unfold render. rewrite Hl2, Hl1, Hd2, Hd1, Hdat2, He2, Hdl2.
    eexists. split; [reflexivity |].
    intros d Hin Heq. apply list_elem_of_In, in_map_iff. exists d.
    split; [| by apply list_elem_of_In].
    unfold statusOf, objTruthy. by rewrite Heq, Hst2.
Qed.

Lemma render_switch_then_404_witness :
  "d2" ≠ "" ∧ loading Samples.dashboard1 = false ∧ devices Samples.dashboard1 ≠ []
  ∧ ∃ items,
      render (fetchDeviceData_settle Samples.dashboard1 "d2" true (Response 404 None)
                1700000000000 (fst (handleDeviceChange "d2" Samples.dashboard1)))
      = Some (mkPage (Some "No data available for this device") items [NoDataAvailable])
      ∧ ("bg-red-500", "Roof") ∈ items.
Proof.
  assert (Hid : "d2" ≠ "") by discriminate.
  assert (Hd : devices Samples.dashboard1 ≠ []) by discriminate.
  split; [exact Hid |]. split; [reflexivity |]. split; [exact Hd |].
  destruct (proj2 (render_switch_then_404 Samples.dashboard1 "d2" None 1700000000000
                     Samples.dashboard1 Hid eq_refl Hd)) as (items & Hr & Hdot).
  exists items. split; [exact Hr |].
  apply (Hdot Samples.dev2); [right; left | reflexivity].
Defined.

(** X11: when the location names a device, the list refresh selects nothing by
    itself and the effect on the location decides: a name that is not in the
    fetched list leaves selection, reading and [dataLoading] as they were,
    a name that is in the list becomes the selection and its reading is
    requested. *)
Theorem deviceParam_decides r status (L : list Device.t) probes s p :
  ok status = true → p ≠ "" →
  let s1 := fetchDevices r (Some p) (Response status (Some L)) probes s in
  let s2 := deviceParamEffect s1 (Some p) s1 in
  ((∀ d, d ∈ L → Device.device_id d ≠ p) →
     selectedDevice s2 = selectedDevice s
     ∧ deviceData s2 = deviceData s
     ∧ dataLoading s2 = dataLoading s)
  ∧ (∀ d, d ∈ L → Device.device_id d = p →
       selectedDevice s2 = p ∧ dataLoading s2 = true ∧ error s2 = "").
Proof.
  intros Hok Hp s1 s2. apply String.eqb_neq in Hp.
  assert (H1 : devices s1 = L ∧ selectedDevice s1 = selectedDevice s
               ∧ deviceData s1 = deviceData s ∧ dataLoading s1 = dataLoading s).
  { unfold s1, fetchDevices. rewrite Hok. cbn [default from_option id]. rewrite Hp.
    rewrite andb_false_r. destruct L; done. }
  destruct H1 as (Hdev & Hsel & Hdat & Hdl).
  unfold s2, deviceParamEffect. rewrite Hp, Hdev. cbn [negb andb].
  split.
  - intros Hno. rewrite (find_device_None p L Hno).
    destruct (Nat.eqb (length L) 0); done.
  - intros d Hin Heq.
    destruct (find_device_Some p L d Hin Heq) as [d' ->].
    destruct L as [|d0 L']; [by apply not_elem_of_nil in Hin |].
    cbn [length Nat.eqb negb]. unfold fetchDeviceData_begin. rewrite Hp. done.
Qed.

Lemma deviceParam_decides_witness :
  ok 200 = true ∧ "d9" ≠ ""
  ∧ (∀ d, d ∈ [Samples.dev1; Samples.dev2] → Device.device_id d ≠ "d9")
  ∧ selectedDevice
      (deviceParamEffect
         (fetchDevices Samples.dashboard0 (Some "d9")
            (Response 200 (Some [Samples.dev1; Samples.dev2])) Samples.probesMixed
            Samples.dashboard0)
         (Some "d9")
         (fetchDevices Samples.dashboard0 (Some "d9")
            (Response 200 (Some [Samples.dev1; Samples.dev2])) Samples.probesMixed
            Samples.dashboard0)) = "".
Proof.
  assert (Hp : "d9" ≠ "") by discriminate.
  assert (Hno : ∀ d, d ∈ [Samples.dev1; Samples.dev2] → Device.device_id d ≠ "d9").
  { intros d H. repeat (apply elem_of_cons in H as [-> | H]; [discriminate |]).
    by apply not_elem_of_nil in H. }
  split; [reflexivity |]. split; [exact Hp |]. split; [exact Hno |].
  exact (proj1 (proj1 (deviceParam_decides Samples.dashboard0 200
                         [Samples.dev1; Samples.dev2] Samples.probesMixed
                         Samples.dashboard0 "d9" eq_refl Hp) Hno)).
Defined.

End Selection.

(** ** The other colours *)

Section MoreColours.
Import JS Dashboard.

(** X12: the branches of [getStatusColor] next to the alerts: humidity below 30
    or above 70 is yellow and from 30 to 70 green; CO up to 3 and PM2.5 up to
    150 are green; a NaN value is green for every type that has thresholds,
    since it is on neither side of any of them; and no colour other than the
    four classes is ever answered. *)
Theorem getStatusColor_safe_side :
  (∀ q, (q < 30 ∨ 70 < q)%Q → getStatusColor (Fin q) "humidity" = "text-yellow-600")
  ∧ (∀ q, (30 <= q <= 70)%Q → getStatusColor (Fin q) "humidity" = "text-green-600")
  ∧ (∀ q, (q <= 3)%Q → getStatusColor (Fin q) "co" = "text-green-600")
  ∧ (∀ q, (q <= 150)%Q → getStatusColor (Fin q) "pm25" = "text-green-600")
  ∧ (∀ type, type ∈ ["temperature"; "humidity"; "co"; "pm25"] →
             getStatusColor NaN type = "text-green-600")
  ∧ (∀ value type,
       getStatusColor value type
       ∈ ["text-red-600"; "text-yellow-600"; "text-green-600"; "text-gray-600"]).
Proof.
  split; [| split; [| split; [| split; [| split]]]].
  - intros q [H | H]; unfold getStatusColor, ofZ; cbn [String.eqb Ascii.eqb Bool.eqb].
    + apply (num_lt_Fin q (inject_Z 30)) in H. by rewrite H.
    + apply (num_gt_Fin q (inject_Z 70)) in H. rewrite H. by rewrite orb_true_r.
  - intros q [H1 H2]. unfold getStatusColor, ofZ; cbn [String.eqb Ascii.eqb Bool.eqb].
    apply (num_lt_Fin_false q (inject_Z 30)) in H1.
    apply (num_gt_Fin_false q (inject_Z 70)) in H2. by rewrite H1, H2.
  - intros q H. unfold getStatusColor, ofZ; cbn [String.eqb Ascii.eqb Bool.eqb].
    apply (num_gt_Fin_false q (inject_Z 3)) in H. by rewrite H.
  - intros q H. unfold getStatusColor, ofZ; cbn [String.eqb Ascii.eqb Bool.eqb].
    assert (H' : (q <= 300)%Q) by (apply Qle_trans with 150%Q; [exact H | discriminate]).
    apply (num_gt_Fin_false q (inject_Z 150)) in H.
    apply (num_gt_Fin_false q (inject_Z 300)) in H'. by rewrite H', H.
  - intros type H.
    repeat (apply elem_of_cons in H as [-> | H]; [reflexivity |]).
    by apply not_elem_of_nil in H.
  - intros value type. unfold getStatusColor.
    repeat match goal with
           | |- context [if ?b then _ else _] => destruct b
           end;
      repeat ((by left) || right).
Qed.

Lemma getStatusColor_safe_side_witness :
  (30 <= 45 <= 70)%Q
  ∧ getStatusColor (Fin 45) "humidity" = "text-green-600"
  ∧ ("co" ∈ ["temperature"; "humidity"; "co"; "pm25"])
  ∧ getStatusColor NaN "co" = "text-green-600".
Proof.
  assert (H : (30 <= 45 <= 70)%Q) by (split; discriminate).
  assert (Hin : "co" ∈ ["temperature"; "humidity"; "co"; "pm25"])
    by (right; right; left).
  split; [exact H |].
  split; [exact (proj1 (proj2 getStatusColor_safe_side) 45%Q H) |].
  split; [exact Hin |].
  exact (proj1 (proj2 (proj2 (proj2 (proj2 getStatusColor_safe_side)))) "co" Hin).
Defined.

End MoreColours.

(** * Further properties of the analytics page *)

Section AnalyticsFetch.
Import JS Analytics.

(** X14: the device list of the analytics page: the page-level loading flag ends
    false in every case and the collection and the dates are never written;
    a list that is not empty replaces the device list and selects its first
    device whatever was selected; an empty list selects nothing; a failure
    sets a generic message and leaves list and selection. *)
Theorem analytics_fetchDevices (a : fetched (list Device.t)) s :
  let s' := fetchDevices a s in
  loading s' = false
  ∧ rangeData s' = rangeData s ∧ startDate s' = startDate s ∧ endDate s' = endDate s
  ∧ (∀ status first rest, a = Response status (Some (first :: rest)) → ok status = true →
       devices s' = first :: rest
       ∧ selectedDevice s' = Device.device_id first
       ∧ error s' = error s)
  ∧ (∀ status, a = Response status (Some []) → ok status = true →
       devices s' = [] ∧ selectedDevice s' = selectedDevice s)
  ∧ (failed a →
       devices s' = devices s ∧ selectedDevice s' = selectedDevice s
       ∧ error s' = match a with
                    | Response status _ =>
                        if ok status then "Network error" else "Failed to fetch devices"
                    | Rejected => "Network error"
                    end).
Proof.
  intros s'. unfold s', fetchDevices.
  split; [| split; [| split; [| split; [| split; [| split]]]]].
  - destruct a as [|status [[|first rest]|]]; try done; destruct (ok status); done.
  - destruct a as [|status [[|first rest]|]]; try done; destruct (ok status); done.
  - destruct a as [|status [[|first rest]|]]; try done; destruct (ok status); done.
  - destruct a as [|status [[|first rest]|]]; try done; destruct (ok status); done.
  - intros status first rest -> Hok. by rewrite Hok.
  - intros status -> Hok. by rewrite Hok.
  - intros Ha. destruct a as [|status body]; [done |].
    destruct Ha as [-> | ->]; [done |]. destruct (ok status); done.
Qed.

Lemma analytics_fetchDevices_witness :
  ok 200 = true
  ∧ selectedDevice
      (fetchDevices
         (Response 200 (Some [Device.mk "d7" "Cellar" "860000000000007" true "u1" "" ""]))
         Samples.analytics1) = "d7".
Proof.
  split; [reflexivity |].
  exact (proj1 (proj2 (proj1 (proj2 (proj2 (proj2 (proj2
           (analytics_fetchDevices
              (Response 200 (Some [Device.mk "d7" "Cellar" "860000000000007" true "u1" "" ""]))
              Samples.analytics1)))))
           200%Z (Device.mk "d7" "Cellar" "860000000000007" true "u1" "" "") []
           eq_refl eq_refl))).
Defined.

(** X15: [fetchRangeData] never writes the device list, the selection, the dates,
    the page-level loading flag or the auto-refresh switch.  Without a
    device or without one of the dates it writes nothing at all, not even
    the message.  With them, a successful answer replaces the collection by
    the answer, clears the message and ends with [dataLoading] false. *)
Theorem fetchRangeData_success_and_frame r (a : fetched (list RangeData.t)) s :
  let s' := fetchRangeData r a s in
  (devices s' = devices s ∧ selectedDevice s' = selectedDevice s
   ∧ startDate s' = startDate s ∧ endDate s' = endDate s
   ∧ loading s' = loading s ∧ autoRefresh s' = autoRefresh s)
  ∧ (selectedDevice r = "" ∨ startDate r = None ∨ endDate r = None → s' = s)
  ∧ (∀ status data, is_Some (rangeQuery r) →
       a = Response status (Some data) → ok status = true →
       rangeData s' = data ∧ error s' = "" ∧ dataLoading s' = false).
Proof.
  intros s'. unfold s', fetchRangeData.
  split; [| split].
  - destruct (rangeQuery r); [| done].
    destruct a as [|status [data|]]; try done; destruct (ok status); done.
  - intros H. unfold rangeQuery.
    destruct H as [H | [H | H]]; rewrite H;
      destruct (startDate r); try destruct (endDate r); done.
  - intros status data [q Hq] -> Hok. by rewrite Hq, Hok.
Qed.

Lemma fetchRangeData_success_and_frame_witness :
  is_Some (rangeQuery Samples.analytics1) ∧ ok 200 = true
  ∧ rangeData (fetchRangeData Samples.analytics1
                 (Response 200 (Some [Samples.row 21 "1700000300"])) Samples.analytics1)
    = [Samples.row 21 "1700000300"].
Proof.
  assert (Hq : is_Some (rangeQuery Samples.analytics1)) by (eexists; reflexivity).
  split; [exact Hq |]. split; [reflexivity |].
  exact (proj1 (proj2 (proj2 (fetchRangeData_success_and_frame Samples.analytics1
                                (Response 200 (Some [Samples.row 21 "1700000300"]))
                                Samples.analytics1))
                  200%Z [Samples.row 21 "1700000300"] Hq eq_refl eq_refl)).
Defined.

Lemma seconds_of_ms (a : Z) :
  Math_floor (num_div (ofZ a) (ofZ 1000)) = ofZ (a / 1000).
Proof.
  unfold ofZ. cbn [num_div Math_floor].
  change (inject_Z 1000 ?= 0)%Q with Gt. cbn [Math_floor]. unfold ofZ. do 2 f_equal.
  unfold Qfloor, Qdiv, Qmult, Qinv, inject_Z. cbn [Qnum Qden].
  change (Z.pos (1 * 1000))%Z with 1000%Z. by rewrite Z.mul_1_r.
Qed.

(** X16: the query of a range request carries the two dates as whole seconds,
    rounded down: the second of a date is at most one second before it, and
    the order of the dates is kept.  A date that is invalid does not stop
    the request: its bound is NaN. *)
Theorem rangeQuery_seconds r :
  selectedDevice r ≠ "" →
  (∀ a b, startDate r = Some (Some a) → endDate r = Some (Some b) →
     rangeQuery r = Some (selectedDevice r, ofZ (a / 1000), ofZ (b / 1000))
     ∧ (a / 1000 * 1000 <= a < a / 1000 * 1000 + 1000)%Z
     ∧ ((a <= b)%Z → (a / 1000 <= b / 1000)%Z))
  ∧ (∀ e, startDate r = Some None → endDate r = Some e →
       ∃ to_ts, rangeQuery r = Some (selectedDevice r, NaN, to_ts)).
Proof.
  intros Hsel. apply String.eqb_neq in Hsel. split.
  - intros a b Ha Hb. unfold rangeQuery. rewrite Ha, Hb, Hsel.
    cbn [getTime]. rewrite !seconds_of_ms. split; [reflexivity |]. split.
    + pose proof (Z.div_mod a 1000 ltac:(done)).
      pose proof (Z.mod_pos_bound a 1000 ltac:(done)). lia.
    + intros Hle. by apply Z.div_le_mono.
  - intros e Ha Hb. unfold rangeQuery. rewrite Ha, Hb, Hsel. eexists. reflexivity.
Qed.

Lemma rangeQuery_seconds_witness :
  selectedDevice Samples.analytics1 ≠ ""
  ∧ rangeQuery Samples.analytics1 = Some ("d1", ofZ 1699920000, ofZ 1700006400).
Proof.
  assert (Hsel : selectedDevice Samples.analytics1 ≠ "") by discriminate.
  split; [exact Hsel |].
  exact (proj1 (proj1 (rangeQuery_seconds Samples.analytics1 Hsel)
                  1699920000000%Z 1700006400000%Z eq_refl eq_refl)).
Defined.

End AnalyticsFetch.

Section MoreStatistics.
Import JS Analytics.

(** X17: for a collection that is not empty and a metric with finite values,
    the minimum, the maximum and the current value are finite, the current
    value is the one of the last reading, and it lies between the minimum
    and the maximum. *)
Theorem statistics_ordered (k : dataKey) (rangeData : list RangeData.t) (qs : list Q) :
  rangeData ≠ [] →
  values k rangeData = Fin <$> qs →
  ∃ mn mx c,
    minValue (values k rangeData) = Fin mn
    ∧ maxValue (values k rangeData) = Fin mx
    ∧ currentValue (values k rangeData) = Some (Fin c)
    ∧ (field k <$> last rangeData) = Some (Fin c)
    ∧ (mn <= c)%Q ∧ (c <= mx)%Q ∧ (mn <= mx)%Q.
Proof.
  intros Hne Hv. destruct qs as [|q qs].
  { destruct rangeData; [done | discriminate]. }
  assert (Hcur : currentValue (values k rangeData) = field k <$> last rangeData).
  { unfold currentValue, values. apply fmap_last. }
  rewrite Hv in *. unfold minValue, maxValue.
  destruct (Math_min_Fin q qs) as (mn & -> & Hmn & Hmin).
  destruct (Math_max_Fin q qs) as (mx & -> & Hmx & Hmax).
  assert (Hlast : ∃ c, last (Fin <$> q :: qs) = Some (Fin c) ∧ In c (q :: qs)).
  { rewrite fmap_last. destruct (last (q :: qs)) as [c|] eqn:E.
    - exists c. split; [reflexivity |]. by apply list_elem_of_In, last_Some_elem_of.
    - by apply last_None in E. }
  destruct Hlast as (c & Hc & Hin).
  exists mn, mx, c. unfold currentValue in *.
  split; [done |]. split; [done |]. split; [done |].
  split; [by rewrite <- Hcur |].
  split; [by apply Hmin |]. split; [by apply Hmax |].
  apply Qle_trans with c; [by apply Hmin | by apply Hmax].
Qed.

Lemma statistics_ordered_witness :
  Samples.rows3 ≠ []
  ∧ values Temperature Samples.rows3 = Fin <$> [inject_Z 20; inject_Z 22; inject_Z 24]
  ∧ ∃ mn mx c,
      minValue (values Temperature Samples.rows3) = Fin mn
      ∧ maxValue (values Temperature Samples.rows3) = Fin mx
      ∧ currentValue (values Temperature Samples.rows3) = Some (Fin c)
      ∧ (mn <= c)%Q ∧ (c <= mx)%Q.
Proof.
  assert (Hne : Samples.rows3 ≠ []) by discriminate.
  split; [exact Hne |]. split; [reflexivity |].
  destruct (statistics_ordered Temperature Samples.rows3
              [inject_Z 20; inject_Z 22; inject_Z 24] Hne eq_refl)
    as (mn & mx & c & H1 & H2 & H3 & _ & H5 & H6 & _).
  exists mn, mx, c. done.
Defined.

Section Series.
Variable toLocaleTimeString : Date → string.
Variable toLocaleString : Date → string.

(** X18: the elements of [chartData] follow the collection one to one and carry
    every sensor field but CO2: the line of a chart reads the values of its
    metric in the order of the collection, except the line of the CO2
    chart, which finds no value in any element. *)
Theorem chartData_series (rangeData : list RangeData.t) :
  length (chartData toLocaleTimeString toLocaleString rangeData) = length rangeData
  ∧ (∀ k, k ≠ Co2 →
       chartField k <$> chartData toLocaleTimeString toLocaleString rangeData
       = Some <$> values k rangeData)
  ∧ (∀ item, item ∈ chartData toLocaleTimeString toLocaleString rangeData →
       chartField Co2 item = None).
Proof.
  split; [apply length_map |]. split.
  - intros k Hk. unfold chartData, values.
    induction rangeData as [|d l IH]; [reflexivity |].
    cbn [List.map fmap list_fmap] in *. rewrite IH. f_equal. by destruct k.
  - done.
Qed.

End Series.

Lemma chartData_series_witness :
  Pressure ≠ Co2
  ∧ chartField Pressure <$> chartData (fun _ => "") (fun _ => "") Samples.rows3
    = [Some (ofZ 1013); Some (ofZ 1013); Some (ofZ 1013)].
Proof.
  assert (Hk : Pressure ≠ Co2) by discriminate.
  split; [exact Hk |].
  exact (proj1 (proj2 (chartData_series (fun _ => "") (fun _ => "") Samples.rows3))
           Pressure Hk).
Defined.

End MoreStatistics.

Section ExportOutcome.
Import JS Analytics.
Variable Number_toString : number → string.
Variable format_yMd : Z → string.

Lemma new_Date_out_of_range (t : Z) :
  ¬ (- 8640000000000000 <= t * 1000 <= 8640000000000000)%Z →
  new_Date (num_mul (ofZ t) (ofZ 1000)) = None.
Proof.
  intros H. unfold ofZ. cbn [num_mul].
  change (inject_Z t * inject_Z 1000)%Q with (inject_Z (t * 1000)).
  unfold new_Date.
  change (Qabs (inject_Z (t * 1000))) with (inject_Z (Z.abs (t * 1000))).
  destruct (Qle_bool _ (inject_Z 8640000000000000)) eqn:E; [| reflexivity].
  apply Qle_bool_iff in E. rewrite <- Zle_Qle in E. lia.
Qed.

(** A row has a text exactly when its time stamp reads as a date. *)
Lemma csvRow_is_Some (row : RangeData.t) :
  is_Some (csvRow Number_toString row) ↔ ∃ t, timestamp row t.
Proof.
  split.
  - intros [line Hline]. unfold csvRow, parseInt in Hline.
    destruct (parseInt_int (RangeData.recorded_at row)) as [t|] eqn:Hp; [| discriminate].
    exists t. split; [exact Hp |].
    destruct (decide (- 8640000000000000 <= t * 1000 <= 8640000000000000)%Z) as [H | H];
      [exact H |].
    rewrite (new_Date_out_of_range t H) in Hline. discriminate.
  - intros [t Ht]. rewrite (csvRow_line Number_toString row t Ht). eauto.
Qed.

Lemma csvRow_None (row : RangeData.t) :
  csvRow Number_toString row = None ↔ ∀ t, ¬ timestamp row t.
Proof.
  rewrite eq_None_not_Some, csvRow_is_Some. split.
  - intros H t Ht. apply H. eauto.
  - intros H [t Ht]. by apply (H t).
Qed.

Lemma csvContent_None (rows : list RangeData.t) :
  csvContent Number_toString rows = None
  ↔ ∃ row, row ∈ rows ∧ ∀ t, ¬ timestamp row t.
Proof.
  unfold csvContent. split.
  - intros H.
    destruct (mapM (csvRow Number_toString) rows) as [lines|] eqn:E; [discriminate |].
    apply mapM_None_1, Exists_exists in E as (row & Hin & Hrow).
    exists row. split; [exact Hin | by apply csvRow_None].
  - intros (row & Hin & Hrow).
    rewrite (mapM_None_2 (csvRow Number_toString) rows); [reflexivity |].
    apply Exists_exists. exists row. split; [exact Hin | by apply csvRow_None].
Qed.

Lemma formatDate_None (d : option Date) :
  formatDate format_yMd d = None ↔ ∀ t, d ≠ Some (Some t).
Proof.
  destruct d as [[t|]|]; cbn; split; try done.
  intros H. by destruct (H t).
Qed.

(** X19: the export never writes the store and hands over at most one file.  It
    ends in an exception, with no file, exactly when the collection is not
    empty and a reading has a time stamp that does not read as a date, or
    the start date or the end date is missing or invalid. *)
Theorem exportData_outcome r s :
  (∀ s' files, exportData Number_toString format_yMd r s = Some (s', files) →
     s' = s ∧ length files ≤ 1)
  ∧ (exportData Number_toString format_yMd r s = None
     ↔ rangeData r ≠ []
       ∧ ((∃ row, row ∈ rangeData r ∧ ∀ t, ¬ timestamp row t)
          ∨ (∀ t, startDate r ≠ Some (Some t))
          ∨ (∀ t, endDate r ≠ Some (Some t)))).
Proof.
  rewrite <- csvContent_None, <- !formatDate_None.
  unfold exportData. destruct (rangeData r) as [|row0 rows] eqn:E.
  { split; [intros s' files [= <- <-]; split; [done | cbn; lia] |].
    split; [discriminate | intros [H _]; done]. }
  destruct (csvContent Number_toString (row0 :: rows)) as [c|],
    (formatDate format_yMd (startDate r)) as [from|],
    (formatDate format_yMd (endDate r)) as [to|]; cbn.
  all: split;
    [intros s' files H;
     first [discriminate | injection H as <- <-; split; [done | cbn; lia]] |].
  all: split; [first [discriminate | intros _; split; [done | tauto]] |].
  all: first [reflexivity | intros [_ [H | [H | H]]]; discriminate].
Qed.

End ExportOutcome.

Lemma exportData_outcome_witness :
  Analytics.exportData Samples.integerText Samples.utcDate
    (Analytics.setRangeData [Samples.row 20 "n/a"] Samples.analytics1)
    Samples.analytics1 = None.
Proof.
  apply (proj2 (exportData_outcome Samples.integerText Samples.utcDate
                  (Analytics.setRangeData [Samples.row 20 "n/a"] Samples.analytics1)
                  Samples.analytics1)).
  split; [discriminate |]. left. exists (Samples.row 20 "n/a").
  split; [left |]. intros t [Ht _]. discriminate.
Defined.

(** ** The two answers of a refresh *)

Section RefreshRace.
Import JS Dashboard.

(** X13: a refresh with a device selected starts the reading request and the
    list request together.  When both succeed, every cell of the state but
    the status map is the same whichever answer arrives first.  The status
    map is not: if the list answer is last the map is the one its loop
    built, and what the reading answer wrote is gone; if the reading answer
    is last the entry of the selected device is the one it computed. *)
Theorem refresh_answers_order r deviceParam st1 data now st2 (L : list Device.t)
    probes s d :
  selectedDevice r ≠ "" → ok st1 = true → ok st2 = true →
  d ∈ devices r → Device.device_id d = selectedDevice r →
  let s0 := refreshData r s in
  let reading := fetchDeviceData_settle r (selectedDevice r) true
                   (Response st1 (Some data)) now in
  let list := fetchDevices r deviceParam (Response st2 (Some L)) probes in
  deviceStatuses (list (reading s0)) = statusLoop probes 0 L ∅
  ∧ deviceStatuses (reading (list s0))
    = <[selectedDevice r := isDeviceOnline now d (Some data)]> (statusLoop probes 0 L ∅)
  ∧ setDeviceStatuses (fun _ => ∅) (list (reading s0))
    = setDeviceStatuses (fun _ => ∅) (reading (list s0)).
Proof.
  intros Hsel Hok1 Hok2 Hin Hid s0 reading list.
  destruct (find_device_Some (selectedDevice r) (devices r) d Hin Hid) as [d' Hfind].
  apply String.eqb_neq in Hsel.
  unfold reading, list, s0, refreshData, fetchDevices, fetchDeviceData_settle,
    fetchDeviceData_begin.
  rewrite Hsel, Hok1, Hok2, Hfind. cbn [andb].
  destruct L as [|first rest]; repeat split; reflexivity.
Qed.

Lemma refresh_answers_order_witness :
  selectedDevice Samples.dashboard1 ≠ "" ∧ ok 200 = true
  ∧ Samples.dev2 ∈ devices Samples.dashboard1
  ∧ Device.device_id Samples.dev2 = selectedDevice Samples.dashboard1
  ∧ deviceStatuses
      (fetchDevices Samples.dashboard1 None
         (Response 200 (Some [Samples.dev1; Samples.dev2])) Samples.probes404
         (fetchDeviceData_settle Samples.dashboard1 "d2" true
            (Response 200 (Some (Samples.reading "1700000000"))) 1700000005000
            (refreshData Samples.dashboard1 Samples.dashboard1))) !! "d2"
    = Some false
  ∧ deviceStatuses
      (fetchDeviceData_settle Samples.dashboard1 "d2" true
         (Response 200 (Some (Samples.reading "1700000000"))) 1700000005000
         (fetchDevices Samples.dashboard1 None
            (Response 200 (Some [Samples.dev1; Samples.dev2])) Samples.probes404
            (refreshData Samples.dashboard1 Samples.dashboard1))) !! "d2"
    = Some true.
Proof.
  assert (Hsel : selectedDevice Samples.dashboard1 ≠ "") by discriminate.
  assert (Hin : Samples.dev2 ∈ devices Samples.dashboard1) by (right; left).
  split; [exact Hsel |]. split; [reflexivity |]. split; [exact Hin |].
  split; [reflexivity |].
  pose proof (refresh_answers_order Samples.dashboard1 None 200
                (Samples.reading "1700000000") 1700000005000 200
                [Samples.dev1; Samples.dev2] Samples.probes404 Samples.dashboard1
                Samples.dev2 Hsel eq_refl eq_refl Hin eq_refl) as (H1 & H2 & _).
  cbv zeta in H1, H2. cbn [selectedDevice Samples.dashboard1] in H1, H2.
  split.
  - rewrite H1. reflexivity.
  - rewrite H2. apply lookup_insert_eq.
Defined.

End RefreshRace.
